(** * Alpha-Dash price-lookup bridge (src/blpapi.py)

    A shallow embedding of the Flask endpoint [current_price_api] and of the
    lookup function [get_bloomberg_price] it calls, together with the
    properties of the specification that concern them.

    Modelling choices.
    - Python [str] values are Rocq strings.  Ticker text is ASCII: on it
      [isnumeric] is "non-empty and every character is a digit" and [upper]
      maps [a-z] to [A-Z]; characters outside that range are left alone.
      What the normaliser does with other characters is modelled in the
      module [Unicode], on code points and with Python's character data;
      [normalize_ticker_on_ascii] shows that the two agree on ASCII input.
    - Python [float] is the IEEE binary64 type [PrimFloat.float]; the
      program only moves prices around.
    - The Bloomberg session is an external collaborator.  It is modelled as
      a scripted fake: for every call the program makes on the session, on
      an event or on a message element, the script says what the call
      returns or which exception it raises.  [session.stop()] and the
      [blpapi.Session] constructor return normally.  When the script has no
      further event, [nextEvent(5000)] returns a TIMEOUT event, as the
      provider does when nothing arrives within the time limit.
    - The function body is written in a small monad whose state holds the
      local variables and the list of session calls made so far, and whose
      completions are those of a Python statement: normal, [break],
      [continue], [return v] and a raised exception.
    - [print] calls write to the log only and are left out. *)

From Corelib Require Import PrimFloat.
From Stdlib Require Import String Ascii List ZArith Bool Lia.
Import ListNotations.
Open Scope string_scope.

(** ** Python strings *)

Module Py.

Definition isdigit_char (c : ascii) : bool :=
  (48 <=? nat_of_ascii c)%nat && (nat_of_ascii c <=? 57)%nat.

Definition islower_char (c : ascii) : bool :=
  (97 <=? nat_of_ascii c)%nat && (nat_of_ascii c <=? 122)%nat.

Definition isupper_char (c : ascii) : bool :=
  (65 <=? nat_of_ascii c)%nat && (nat_of_ascii c <=? 90)%nat.

Definition isalpha_char (c : ascii) : bool := islower_char c || isupper_char c.

Definition upper_char (c : ascii) : ascii :=
  if islower_char c then ascii_of_nat (nat_of_ascii c - 32) else c.

Fixpoint all_chars (f : ascii -> bool) (s : string) : bool :=
  match s with
  | EmptyString => true
  | String c s' => f c && all_chars f s'
  end.

Fixpoint any_char (f : ascii -> bool) (s : string) : bool :=
  match s with
  | EmptyString => false
  | String c s' => f c || any_char f s'
  end.

(** [s.isnumeric()]: false on the empty string. *)
Definition isnumeric (s : string) : bool :=
  match s with
  | EmptyString => false
  | _ => all_chars isdigit_char s
  end.

(** [s.upper()] *)
Fixpoint upper (s : string) : string :=
  match s with
  | EmptyString => EmptyString
  | String c s' => String (upper_char c) (upper s')
  end.

(** [c in s] for a one-character [c]. *)
Definition contains (c : ascii) (s : string) : bool := any_char (Ascii.eqb c) s.

(** [s.split(c)] for a one-character separator: one part more than there
    are separators, empty parts kept. *)
Fixpoint split (c : ascii) (s : string) : list string :=
  match s with
  | EmptyString => [EmptyString]
  | String a s' =>
      if Ascii.eqb a c then EmptyString :: split c s'
      else match split c s' with
           | [] => [String a EmptyString]
           | p :: ps => String a p :: ps
           end
  end.

(** How an f-string renders a variable that holds a [str] or [None]. *)
Definition format (o : option string) : string :=
  match o with
  | Some s => s
  | None => "None"
  end.

(** Truth value of a variable that holds a [str] or [None]. *)
Definition truthy (o : option string) : bool :=
  match o with
  | Some s => negb (s =? "")
  | None => false
  end.

(** [a or b] where [a] holds a [str] or [None]. *)
Definition or_else (a : option string) (b : string) : string :=
  match a with
  | Some s => if s =? "" then b else s
  | None => b
  end.

(** What a call returns, or the [Exception] it raises (by its [str(e)]). *)
Inductive outcome (A : Type) : Type :=
| Returns (v : A)
| Raises (e : string).
Arguments Returns {A} v.
Arguments Raises {A} e.

End Py.
Import Py.

(** ** Ticker normalisation (get_bloomberg_price, lines 58-70) *)

Definition normalize_ticker (ticker_input : string) : string :=
  if isnumeric ticker_input then
    ticker_input ++ " JT EQUITY"
  else if contains "." ticker_input then
    let parts := split "." ticker_input in
    let code := nth 0 parts "" in
    let market_suffix :=
      if (1 <? length parts)%nat then upper (nth 1 parts "") else "" in
    if market_suffix =? "T" then code ++ " JT EQUITY"
    else code ++ " EQUITY"
  else
    upper ticker_input ++ " US EQUITY".

(** Text before the first occurrence of [c] (all of [s] when there is none)
    and text after it (empty when there is none). *)
Fixpoint before (c : ascii) (s : string) : string :=
  match s with
  | EmptyString => EmptyString
  | String a s' => if Ascii.eqb a c then EmptyString else String a (before c s')
  end.

Fixpoint after (c : ascii) (s : string) : string :=
  match s with
  | EmptyString => EmptyString
  | String a s' => if Ascii.eqb a c then s' else after c s'
  end.

(** The dotted rule as the specification words it: the suffix is all the
    text after the first dot, upper-cased. *)
Definition dotted_rule_as_specified (ticker_input : string) : string :=
  let code := before "." ticker_input in
  let suffix := upper (after "." ticker_input) in
  if suffix =? "T" then code ++ " JT EQUITY" else code ++ " EQUITY".

(** ** The scripted provider *)

Module blpapi.

(** [blpapi.Event] type constants. *)
Inductive EventType : Set :=
| ADMIN | SESSION_STATUS | SUBSCRIPTION_STATUS | REQUEST_STATUS
| RESPONSE | PARTIAL_RESPONSE | SUBSCRIPTION_DATA | SERVICE_STATUS
| TIMEOUT | AUTHORIZATION_STATUS | RESOLUTION_STATUS | TOPIC_STATUS
| TOKEN_STATUS | REQUEST | UNKNOWN.

Definition EventType_eq_dec (a b : EventType) : {a = b} + {a <> b}.
Proof. decide equality. Defined.

(** An [errorInfo], [securityError] or [responseError] element:
    [getElementAsString('message')]. *)
Record ErrorInfo := { message : outcome string }.

(** One entry of a [fieldExceptions] array. *)
Record FieldException := {
  errorInfo : outcome ErrorInfo;        (* getElement("errorInfo") *)
  fieldId : outcome string;             (* getElementAsString('fieldId') *)
}.

(** The [PX_LAST] element of [fieldData], when it is there. *)
Inductive FieldValue :=
| NullValue                             (* isNullValue("PX_LAST") *)
| Value (v : outcome float).            (* getElementAsFloat("PX_LAST") *)

Record FieldData := {
  PX_LAST : option FieldValue;          (* hasElement("PX_LAST") *)
}.

(** One entry of a [securityData] array. *)
Record SecurityData := {
  security : outcome string;            (* getElementAsString("security") *)
  fieldExceptions : option (list FieldException);
                                        (* hasElement("fieldExceptions", True) *)
  securityError : option ErrorInfo;     (* hasElement("securityError") *)
  fieldData : outcome FieldData;        (* getElement("fieldData") *)
}.

Record Message := {
  correlationIds : list Z;              (* values of msg.correlationIds() *)
  responseError : option ErrorInfo;     (* hasElement("responseError") *)
  securityData : outcome (list SecurityData);
                                        (* getElement("securityData") *)
}.

(** An event.  [eventType()] is called twice on an event that is not a
    timeout, before and after its messages are read; the script answers
    each call. *)
Record Event := {
  eventType : outcome EventType;        (* the call on line 95 *)
  messages : list Message;
  eventType_again : outcome EventType;  (* the call on line 148 *)
}.

(** The session object [blpapi.Session(SESSION_OPTIONS)] gives. *)
Record Session := {
  start : outcome bool;
  openService : outcome bool;
  getService : outcome unit;
  createRequest : outcome unit;
  append_securities : outcome unit;
  append_fields : outcome unit;
  sendRequest : outcome unit;
  correlationId : Z;                    (* request.correlationId().value() *)
  nextEvent : list (outcome Event);
}.

(** What [nextEvent(5000)] returns when nothing arrives in time. *)
Definition timeout_event : Event :=
  {| eventType := Returns TIMEOUT; messages := [];
     eventType_again := Returns TIMEOUT |}.

End blpapi.

(** The calls made on the session, in order. *)
Inductive call :=
| Call_Session
| Call_start
| Call_openService (uri : string)
| Call_getService (uri : string)
| Call_createRequest (operation : string)
| Call_append (name value : string)
| Call_sendRequest
| Call_nextEvent (timeout : Z)
| Call_stop.

Definition is_stop (c : call) : bool :=
  match c with Call_stop => true | _ => false end.

Definition is_nextEvent (c : call) : bool :=
  match c with Call_nextEvent _ => true | _ => false end.

(** Number of [session.stop()] calls and of [session.nextEvent] calls. *)
Definition stops (tr : list call) : nat := length (filter is_stop tr).
Definition polls (tr : list call) : nat := length (filter is_nextEvent tr).

(** ** Statements *)

(** What get_bloomberg_price returns: price, ticker used, error. *)
Definition result : Type := option float * option string * option string.

(** Local variables of get_bloomberg_price and the calls made so far. *)
Record frame := {
  price : option float;
  bloomberg_ticker_used : option string;
  error_message : option string;
  request_processed : bool;
  calls : list call;
}.

Definition set_price (v : option float) (s : frame) : frame :=
  {| price := v; bloomberg_ticker_used := bloomberg_ticker_used s;
     error_message := error_message s;
     request_processed := request_processed s; calls := calls s |}.

Definition set_bloomberg_ticker_used (v : option string) (s : frame) : frame :=
  {| price := price s; bloomberg_ticker_used := v;
     error_message := error_message s;
     request_processed := request_processed s; calls := calls s |}.

Definition set_error_message (v : option string) (s : frame) : frame :=
  {| price := price s; bloomberg_ticker_used := bloomberg_ticker_used s;
     error_message := v;
     request_processed := request_processed s; calls := calls s |}.

Definition set_request_processed (v : bool) (s : frame) : frame :=
  {| price := price s; bloomberg_ticker_used := bloomberg_ticker_used s;
     error_message := error_message s;
     request_processed := v; calls := calls s |}.

Definition log (c : call) (s : frame) : frame :=
  {| price := price s; bloomberg_ticker_used := bloomberg_ticker_used s;
     error_message := error_message s;
     request_processed := request_processed s; calls := calls s ++ [c] |}.

(** How a statement completes. *)
Inductive completion (A : Type) : Type :=
| Normal (a : A)
| Break
| Continue
| Return (r : result)
| Raise (e : string).
Arguments Normal {A} a.
Arguments Break {A}.
Arguments Continue {A}.
Arguments Return {A} r.
Arguments Raise {A} e.

Definition M (A : Type) : Type := frame -> completion A * frame.

Definition ret {A} (a : A) : M A := fun s => (Normal a, s).

Definition bind {A B} (m : M A) (k : A -> M B) : M B :=
  fun s =>
    match m s with
    | (Normal a, s') => k a s'
    | (Break, s') => (Break, s')
    | (Continue, s') => (Continue, s')
    | (Return r, s') => (Return r, s')
    | (Raise e, s') => (Raise e, s')
    end.

Notation "x <- m ;; k" := (bind m (fun x => k))
  (at level 61, m at next level, right associativity).
Notation "m ;; k" := (bind m (fun _ => k))
  (at level 61, right associativity).

Definition get {A} (f : frame -> A) : M A := fun s => (Normal (f s), s).
Definition assign (f : frame -> frame) : M unit := fun s => (Normal tt, f s).
Definition break_ {A} : M A := fun s => (Break, s).
Definition continue_ {A} : M A := fun s => (Continue, s).
Definition return_ {A} (r : result) : M A := fun s => (Return r, s).

(** A call on an event or element: it returns or raises. *)
Definition eval {A} (o : outcome A) : M A :=
  fun s => match o with
           | Returns v => (Normal v, s)
           | Raises e => (Raise e, s)
           end.

(** A call on the session: recorded, then it returns or raises. *)
Definition session_call {A} (c : call) (o : outcome A) : M A :=
  assign (log c) ;; eval o.

(** [for x in xs: body] *)
Fixpoint for_each {X} (xs : list X) (body : X -> M unit) : M unit :=
  fun s =>
    match xs with
    | [] => (Normal tt, s)
    | x :: xs' =>
        match body x s with
        | (Normal _, s') | (Continue, s') => for_each xs' body s'
        | (Break, s') => (Normal tt, s')
        | (Return r, s') => (Return r, s')
        | (Raise e, s') => (Raise e, s')
        end
    end.

(** [try: body / except Exception as e: handler e / finally: final].
    The completion of [final], when it is not normal, replaces the pending
    one. *)
Definition try_except_finally
    (body : M unit) (handler : string -> M unit) (final : M unit) : M unit :=
  fun s =>
    let (c1, s1) := body s in
    let (c2, s2) := match c1 with
                    | Raise e => handler e s1
                    | _ => (c1, s1)
                    end in
    match final s2 with
    | (Normal _, s3) => (c2, s3)
    | other => other
    end.

(** ** get_bloomberg_price (lines 23-159) *)

Definition EventType_eqb (a b : blpapi.EventType) : bool :=
  if blpapi.EventType_eq_dec a b then true else false.

Definition is_some {A} (o : option A) : bool :=
  match o with Some _ => true | None => false end.

(** Body of [for k in range(field_exceptions_array.numValues())],
    lines 118-121. *)
Definition field_exception_body (sec_name : string)
    (field_exception : blpapi.FieldException) : M unit :=
  error_info <- eval (blpapi.errorInfo field_exception) ;;
  field_id <- eval (blpapi.fieldId field_exception) ;;
  msg <- eval (blpapi.message error_info) ;;
  assign (set_error_message
    (Some ("Field Error for " ++ sec_name ++ " (" ++ field_id ++ "): " ++ msg))).

(** Lines 124-141: the record has no field exception. *)
Definition security_error_or_field_data (sec_name : string)
    (security_data : blpapi.SecurityData) : M unit :=
  match blpapi.securityError security_data with
  | Some security_error =>
      msg <- eval (blpapi.message security_error) ;;
      assign (set_error_message
        (Some ("Security Error for " ++ sec_name ++ ": " ++ msg))) ;;
      continue_
  | None =>
      field_data <- eval (blpapi.fieldData security_data) ;;
      match blpapi.PX_LAST field_data with
      | Some (blpapi.Value v) =>
          x <- eval v ;;
          assign (set_price (Some x))
      | Some blpapi.NullValue =>
          t <- get bloomberg_ticker_used ;;
          assign (set_error_message
            (Some ("PX_LAST is null for " ++ format t ++ ".")))
      | None =>
          t <- get bloomberg_ticker_used ;;
          assign (set_error_message
            (Some ("PX_LAST field not found for " ++ format t ++ ".")))
      end ;;
      break_
  end.

(** Body of [for i in range(security_data_array.numValues())],
    lines 112-141. *)
Definition security_data_body (security_data : blpapi.SecurityData) : M unit :=
  sec_name <- eval (blpapi.security security_data) ;;
  match blpapi.fieldExceptions security_data with
  | Some field_exceptions_array =>
      if (0 <? length field_exceptions_array)%nat then
        for_each field_exceptions_array (field_exception_body sec_name) ;;
        continue_
      else security_error_or_field_data sec_name security_data
  | None => security_error_or_field_data sec_name security_data
  end.

(** Body of [for msg in ev], lines 101-145. *)
Definition message_body (session : blpapi.Session) (msg : blpapi.Message)
    : M unit :=
  cid <- eval (match blpapi.correlationIds msg with
               | c :: _ => Returns c
               | [] => Raises "list index out of range"
               end) ;;
  (if (cid =? blpapi.correlationId session)%Z then
     match blpapi.responseError msg with
     | Some response_error =>
         t <- get bloomberg_ticker_used ;;
         m <- eval (blpapi.message response_error) ;;
         assign (set_error_message
           (Some ("Response Error for " ++ format t ++ ": " ++ m))) ;;
         assign (set_request_processed true) ;;
         break_
     | None =>
         security_data_array <- eval (blpapi.securityData msg) ;;
         for_each security_data_array security_data_body
     end
   else ret tt) ;;
  p <- get price ;;
  e <- get error_message ;;
  if is_some p || truthy e then
    assign (set_request_processed true) ;;
    break_
  else ret tt.

(** Body of [while not request_processed], lines 94-149, for the event
    [nextEvent(5000)] gives. *)
Definition event_body (session : blpapi.Session)
    (next : outcome blpapi.Event) : M unit :=
  ev <- session_call (Call_nextEvent 5000) next ;;
  ty <- eval (blpapi.eventType ev) ;;
  if EventType_eqb ty blpapi.TIMEOUT then
    t <- get bloomberg_ticker_used ;;
    assign (set_error_message
      (Some ("Bloomberg API request timed out for " ++ format t ++ "."))) ;;
    break_
  else
    for_each (blpapi.messages ev) (message_body session) ;;
    ty' <- eval (blpapi.eventType_again ev) ;;
    if EventType_eqb ty' blpapi.RESPONSE then
      assign (set_request_processed true)
    else ret tt.

(** [while not request_processed: ...] over the events the script still
    holds.  Past the end of the script every [nextEvent] is a timeout, on
    which the body breaks. *)
Fixpoint while_not_request_processed (session : blpapi.Session)
    (script : list (outcome blpapi.Event)) : M unit :=
  fun s =>
    if request_processed s then (Normal tt, s)
    else
      match script with
      | [] =>
          match event_body session (Returns blpapi.timeout_event) s with
          | (Break, s') => (Normal tt, s')
          | other => other
          end
      | next :: script' =>
          match event_body session next s with
          | (Normal _, s') | (Continue, s') =>
              while_not_request_processed session script' s'
          | (Break, s') => (Normal tt, s')
          | (Return r, s') => (Return r, s')
          | (Raise e, s') => (Raise e, s')
          end
      end.

(** Lines 45-149 of the [try] block: build the request, send it, poll. *)
Definition send_and_poll (session : blpapi.Session) (ticker_input : string)
    : M unit :=
  session_call (Call_getService "//blp/refdata")
    (blpapi.getService session) ;;
  session_call (Call_createRequest "ReferenceDataRequest")
    (blpapi.createRequest session) ;;
  assign (set_bloomberg_ticker_used (Some (normalize_ticker ticker_input))) ;;
  session_call (Call_append "securities" (normalize_ticker ticker_input))
    (blpapi.append_securities session) ;;
  session_call (Call_append "fields" "PX_LAST")
    (blpapi.append_fields session) ;;
  session_call Call_sendRequest (blpapi.sendRequest session) ;;
  assign (set_request_processed false) ;;
  while_not_request_processed session (blpapi.nextEvent session).

(** The [try] block, lines 34-149. *)
Definition request_flow (session : blpapi.Session) (ticker_input : string)
    : M unit :=
  started <- session_call Call_start (blpapi.start session) ;;
  if negb started then
    assign (set_error_message (Some "Failed to start Bloomberg session.")) ;;
    e <- get error_message ;;
    return_ (None, None, e)
  else
    opened <- session_call (Call_openService "//blp/refdata")
                (blpapi.openService session) ;;
    if negb opened then
      assign (set_error_message
        (Some "Failed to open //blp/refdata service.")) ;;
      session_call Call_stop (Returns tt) ;;
      e <- get error_message ;;
      return_ (None, None, e)
    else send_and_poll session ticker_input.

(** The [except Exception as e] block, lines 152-154. *)
Definition except_block (ticker_input : string) (e : string) : M unit :=
  assign (set_error_message
    (Some ("Exception while getting price for " ++ ticker_input ++ ": " ++ e))) ;;
  assign (set_price None).

(** The [finally] block, lines 156-157; a session object is true. *)
Definition finally_block : M unit := session_call Call_stop (Returns tt).

(** The function body, lines 28-159. *)
Definition get_bloomberg_price_body (session : blpapi.Session)
    (ticker_input : string) : M result :=
  session_call Call_Session (Returns tt) ;;
  assign (set_price None) ;;
  assign (set_bloomberg_ticker_used None) ;;
  assign (set_error_message None) ;;
  try_except_finally (request_flow session ticker_input)
    (except_block ticker_input) finally_block ;;
  p <- get price ;;
  t <- get bloomberg_ticker_used ;;
  e <- get error_message ;;
  ret (p, t, e).

Definition new_frame : frame :=
  {| price := None; bloomberg_ticker_used := None; error_message := None;
     request_processed := false; calls := [] |}.

(** A call of the function: what it returns or raises, and the session
    calls it made.  A [break] or [continue] cannot leave a function body. *)
Definition get_bloomberg_price (session : blpapi.Session)
    (ticker_input : string) : outcome result * list call :=
  match get_bloomberg_price_body session ticker_input new_frame with
  | (Normal r, s) | (Return r, s) => (Returns r, calls s)
  | (Raise e, s) => (Raises e, calls s)
  | (Break, s) | (Continue, s) =>
      (Raises "SyntaxError: 'break' outside loop", calls s)
  end.

(** ** current_price_api (lines 161-176) *)

Inductive json :=
| JString (s : string)
| JNumber (x : float).

(** [jsonify(d), status]; a response returned without a status has 200. *)
Record Response := {
  body : list (string * json);
  status : Z;
}.

(** [request.args.get(key)]: the first value given for the key. *)
Definition args_get (key : string) (args : list (string * string))
    : option string :=
  match find (fun kv => fst kv =? key) args with
  | Some kv => Some (snd kv)
  | None => None
  end.

(** [a != b] where [a] holds a [str] or [None]. *)
Definition differs (a : option string) (b : string) : bool :=
  match a with
  | Some s => negb (s =? b)
  | None => true
  end.

Definition ticker_required : Response :=
  {| body := [("error", JString "Ticker parameter is required")];
     status := 400 |}.

Definition current_price_api (session : blpapi.Session)
    (args : list (string * string)) : outcome Response * list call :=
  match args_get "ticker" args with
  | None => (Returns ticker_required, [])
  | Some ticker_input =>
      if ticker_input =? "" then (Returns ticker_required, [])
      else
        match get_bloomberg_price session ticker_input with
        | (Raises e, tr) => (Raises e, tr)
        | (Returns (price, bloomberg_ticker, error), tr) =>
            match price with
            | Some p =>
                (Returns
                   {| body := [("ticker",
                                JString (or_else bloomberg_ticker ticker_input));
                               ("price", JNumber p)];
                      status := 200 |}, tr)
            | None =>
                let error_msg_to_return :=
                  or_else error
                    ("Could not retrieve price for ticker " ++ ticker_input) in
                let error_msg_to_return :=
                  if truthy bloomberg_ticker
                     && differs bloomberg_ticker ticker_input
                  then error_msg_to_return ++ " (used Bloomberg ticker: "
                         ++ format bloomberg_ticker ++ ")"
                  else error_msg_to_return in
                (Returns {| body := [("error", JString error_msg_to_return)];
                            status := 404 |}, tr)
            end
        end
  end.

(** ** Vocabulary of the properties *)

(** The frame on entry to the [try] block. *)
Definition entry_frame : frame := log Call_Session new_frame.

(** The text line 120 builds for one field exception, or the exception
    reading it raises. *)
Definition field_error_of (sec_name : string)
    (field_exception : blpapi.FieldException) : outcome string :=
  match blpapi.errorInfo field_exception with
  | Raises e => Raises e
  | Returns error_info =>
      match blpapi.fieldId field_exception with
      | Raises e => Raises e
      | Returns field_id =>
          match blpapi.message error_info with
          | Raises e => Raises e
          | Returns msg =>
              Returns ("Field Error for " ++ sec_name ++ " (" ++ field_id
                         ++ "): " ++ msg)
          end
      end
  end.

(** After the record [security_data] is read in frame [s], the recorded
    error is the text of the first entry of its field exceptions. *)
Definition records_first_field_exception
    (security_data : blpapi.SecurityData) (s : frame) : Prop :=
  forall sec_name first others text,
    blpapi.security security_data = Returns sec_name ->
    blpapi.fieldExceptions security_data = Some (first :: others) ->
    field_error_of sec_name first = Returns text ->
    error_message (snd (security_data_body security_data s)) = Some text.

Definition returns_true (o : outcome bool) : bool :=
  match o with Returns true => true | _ => false end.

Definition returns_false (o : outcome bool) : bool :=
  match o with Returns false => true | _ => false end.

Definition returns {A} (o : outcome A) : bool :=
  match o with Returns _ => true | Raises _ => false end.

(** The session starts but the service does not open (lines 39-43). *)
Definition service_open_fails (session : blpapi.Session) : bool :=
  returns_true (blpapi.start session)
  && returns_false (blpapi.openService session).

(** The session starts, the service opens and the request is sent. *)
Definition request_is_sent (session : blpapi.Session) : bool :=
  returns_true (blpapi.start session)
  && returns_true (blpapi.openService session)
  && returns (blpapi.getService session)
  && returns (blpapi.createRequest session)
  && returns (blpapi.append_securities session)
  && returns (blpapi.append_fields session)
  && returns (blpapi.sendRequest session).

(** The first event [nextEvent] gives is a timeout event. *)
Definition first_event_is_timeout (session : blpapi.Session) : bool :=
  match blpapi.nextEvent session with
  | [] => true
  | Returns ev :: _ =>
      match blpapi.eventType ev with
      | Returns blpapi.TIMEOUT => true
      | _ => false
      end
  | Raises _ :: _ => false
  end.

(** [needle] occurs in [s]. *)
Definition occurs_in (needle s : string) : Prop :=
  exists before_it after_it, s = before_it ++ needle ++ after_it.

(** The calls of a lookup that is answered by one event. *)
Definition calls_of_one_poll (ticker : string) : list call :=
  [Call_Session; Call_start; Call_openService "//blp/refdata";
   Call_getService "//blp/refdata"; Call_createRequest "ReferenceDataRequest";
   Call_append "securities" ticker; Call_append "fields" "PX_LAST";
   Call_sendRequest; Call_nextEvent 5000; Call_stop].

(** ** Sample provider scripts *)

Module Sample.
Import blpapi.

(** A session on which every call succeeds and that delivers [events]. *)
Definition working_session (events : list (outcome Event)) : Session :=
  {| start := Returns true; openService := Returns true;
     getService := Returns tt; createRequest := Returns tt;
     append_securities := Returns tt; append_fields := Returns tt;
     sendRequest := Returns tt; correlationId := 1;
     nextEvent := events |}.

(** A session that starts and then fails to open the service. *)
Definition open_failure_session : Session :=
  {| start := Returns true; openService := Returns false;
     getService := Returns tt; createRequest := Returns tt;
     append_securities := Returns tt; append_fields := Returns tt;
     sendRequest := Returns tt; correlationId := 1;
     nextEvent := [] |}.

Definition priced (name : string) (x : float) : SecurityData :=
  {| security := Returns name; fieldExceptions := None;
     securityError := None;
     fieldData := Returns {| PX_LAST := Some (Value (Returns x)) |} |}.

Definition unknown_security (name : string) : SecurityData :=
  {| security := Returns name; fieldExceptions := None;
     securityError := Some {| message := Returns "Unknown/Invalid security" |};
     fieldData := Raises "Sub-element 'fieldData' not found" |}.

Definition field_exception (field_id msg : string) : FieldException :=
  {| errorInfo := Returns {| message := Returns msg |};
     fieldId := Returns field_id |}.

(** A record with two field exceptions. *)
Definition two_field_exceptions : SecurityData :=
  {| security := Returns "MSFT US EQUITY";
     fieldExceptions :=
       Some [field_exception "PX_LAST" "Field not valid";
             field_exception "PX_LAST" "Not applicable to this security"];
     securityError := None;
     fieldData := Raises "Sub-element 'fieldData' not found" |}.

Definition reply (records : list SecurityData) : Message :=
  {| correlationIds := [1%Z]; responseError := None;
     securityData := Returns records |}.

(** The final response event carrying [records]. *)
Definition response (records : list SecurityData) : Event :=
  {| eventType := Returns RESPONSE; messages := [reply records];
     eventType_again := Returns RESPONSE |}.

(** A partial response whose second [eventType()] call raises. *)
Definition response_then_failure (records : list SecurityData) : Event :=
  {| eventType := Returns PARTIAL_RESPONSE; messages := [reply records];
     eventType_again := Raises "connection lost" |}.

End Sample.

(** ** Statement-level reasoning *)

(** A completion that is not a [return]: what a loop body may do. *)
Definition no_return {A} (c : completion A) : Prop :=
  match c with
  | Return _ => False
  | _ => True
  end.

(** A completion that is normal or a raised exception: what a loop, and a
    statement with no [break], [continue] or [return] of its own, may do. *)
Definition settled {A} (c : completion A) : Prop :=
  match c with
  | Normal _ | Raise _ => True
  | _ => False
  end.

(** From a frame that satisfies [I], the statement [m] completes as
    [allowed] and leaves a frame that satisfies [I]. *)
Definition keeps (I : frame -> Prop) {A} (allowed : completion A -> Prop)
    (m : M A) : Prop :=
  forall s, I s -> allowed (fst (m s)) /\ I (snd (m s)).

(** The session has been stopped [n] times so far. *)
Definition stopped (n : nat) (s : frame) : Prop := stops (calls s) = n.

(** During a lookup of [ticker_input]: the ticker in use is unset or the
    normalised input, and a recorded error is never the empty text. *)
Definition lookup_frame (ticker_input : string) (s : frame) : Prop :=
  (bloomberg_ticker_used s = None
   \/ bloomberg_ticker_used s = Some (normalize_ticker ticker_input))
  /\ error_message s <> Some "".

(** What get_bloomberg_price makes of the way the [try] block completes. *)
Definition outcome_of_flow (ticker_input : string)
    (flow : completion unit * frame) : outcome result * list call :=
  match flow with
  | (Normal _, s) =>
      (Returns (price s, bloomberg_ticker_used s, error_message s),
       (calls s ++ [Call_stop])%list)
  | (Return r, s) => (Returns r, (calls s ++ [Call_stop])%list)
  | (Raise e, s) =>
      (Returns (None, bloomberg_ticker_used s,
                Some ("Exception while getting price for " ++ ticker_input
                        ++ ": " ++ e)),
       (calls s ++ [Call_stop])%list)
  | (Break, s) | (Continue, s) =>
      (Raises "SyntaxError: 'break' outside loop", (calls s ++ [Call_stop])%list)
  end.

(** The message of a failed lookup as the specification words it: the
    recorded error, or else the fallback naming the raw input; then the
    normalised ticker in parentheses when there is one and it differs from
    the raw input. *)
Definition failure_message (raw : string) (normalized error : option string)
    : string :=
  let message :=
    match error with
    | Some e => e
    | None => "Could not retrieve price for ticker " ++ raw
    end in
  match normalized with
  | Some ticker =>
      if ticker =? raw then message
      else message ++ " (used Bloomberg ticker: " ++ ticker ++ ")"
  | None => message
  end.

(** ** Vocabulary of the further properties *)

(** [s] ends with [suffix]. *)
Definition ends_with (suffix s : string) : Prop :=
  exists before_it, s = before_it ++ suffix.

(** The record has no field exception to report: the test of line 115 is
    false. *)
Definition no_field_exceptions (security_data : blpapi.SecurityData) : bool :=
  match blpapi.fieldExceptions security_data with
  | Some (_ :: _) => false
  | _ => true
  end.

(** The message answers another request: its first correlation id is not
    that of the request sent (line 102). *)
Definition foreign (session : blpapi.Session) (msg : blpapi.Message) : bool :=
  match blpapi.correlationIds msg with
  | c :: _ => negb (c =? blpapi.correlationId session)%Z
  | [] => false
  end.

(** The calls that build and send the request for [ticker], lines 28-90. *)
Definition calls_to_send (ticker : string) : list call :=
  [Call_Session; Call_start; Call_openService "//blp/refdata";
   Call_getService "//blp/refdata"; Call_createRequest "ReferenceDataRequest";
   Call_append "securities" ticker; Call_append "fields" "PX_LAST";
   Call_sendRequest].

(** The frame in which the messages of the first event are read. *)
Definition first_poll_frame (ticker : string) : frame :=
  {| price := None; bloomberg_ticker_used := Some ticker;
     error_message := None; request_processed := false;
     calls := (calls_to_send ticker ++ [Call_nextEvent 5000])%list |}.

(** The session has been created and started. *)
Definition opened_by_start (s : frame) : Prop :=
  exists later, calls s = Call_Session :: Call_start :: later.

(** The request for [ticker] has been built and sent. *)
Definition sent_for (ticker : string) (s : frame) : Prop :=
  exists later, calls s = (calls_to_send ticker ++ later)%list.

(** The ticker in use is [ticker]. *)
Definition uses_ticker (ticker : string) (s : frame) : Prop :=
  bloomberg_ticker_used s = Some ticker.

(** The three answers of the endpoint. *)
Definition is_bad_request (r : Response) : Prop :=
  status r = 400%Z
  /\ body r = [("error", JString "Ticker parameter is required")].

Definition is_price (r : Response) : Prop :=
  status r = 200%Z
  /\ exists ticker p, body r = [("ticker", JString ticker); ("price", JNumber p)].

Definition is_failure (r : Response) : Prop :=
  status r = 404%Z /\ exists msg, body r = [("error", JString msg)].

(** The frame when the request for [ticker] has just been sent. *)
Definition sent_frame (ticker : string) : frame :=
  {| price := None; bloomberg_ticker_used := Some ticker;
     error_message := None; request_processed := false;
     calls := calls_to_send ticker |}.

(** ** More sample scripts *)

Module Scenario.
Import blpapi.

(** The provider rejects the request. *)
Definition rejection : Message :=
  {| correlationIds := [1%Z];
     responseError := Some {| message := Returns "Invalid request" |};
     securityData := Raises "Sub-element 'securityData' not found" |}.

Definition rejected : Event :=
  {| eventType := Returns RESPONSE; messages := [rejection];
     eventType_again := Returns RESPONSE |}.

(** A session that does not start: [start()] raises. *)
Definition unreachable_session : Session :=
  {| start := Raises "Connection refused"; openService := Returns true;
     getService := Returns tt; createRequest := Returns tt;
     append_securities := Returns tt; append_fields := Returns tt;
     sendRequest := Returns tt; correlationId := 1; nextEvent := [] |}.

(** A partial response that answers another request. *)
Definition for_another_request : Event :=
  {| eventType := Returns PARTIAL_RESPONSE;
     messages :=
       [{| correlationIds := [2%Z]; responseError := None;
           securityData := Returns [Sample.priced "IBM US EQUITY" 140] |}];
     eventType_again := Returns PARTIAL_RESPONSE |}.

End Scenario.

(** The text recorded for a record whose PX_LAST holds no number: null
    (line 136) or absent (line 139). *)
Definition no_price_text (ticker : string) (px : option blpapi.FieldValue)
    : option string :=
  match px with
  | Some blpapi.NullValue => Some ("PX_LAST is null for " ++ ticker ++ ".")
  | None => Some ("PX_LAST field not found for " ++ ticker ++ ".")
  | Some (blpapi.Value _) => None
  end.

(** ** Python strings as code points *)

(** The byte strings of [Py] are exact on ASCII text.  The branches of the
    normaliser turn on [str.isnumeric] and [str.upper], which Python
    defines on every Unicode character; this module has the text as Python
    has it, a sequence of code points, with the character data of Unicode
    14.0.0: the numeric characters, the letters, and the full upper-case
    mapping, in which one character may become several. *)

Module Unicode.

Definition str : Type := list N.

(** The characters [c] with [c.isnumeric()], as ranges of code points. *)
Definition numeric_ranges : list (N * N) :=
  [(48, 57); (178, 179); (185, 185); (188, 190); (1632, 1641);
   (1776, 1785); (1984, 1993); (2406, 2415); (2534, 2543); (2548, 2553);
   (2662, 2671); (2790, 2799); (2918, 2927); (2930, 2935); (3046, 3058);
   (3174, 3183); (3192, 3198); (3302, 3311); (3416, 3422); (3430, 3448);
   (3558, 3567); (3664, 3673); (3792, 3801); (3872, 3891); (4160, 4169);
   (4240, 4249); (4969, 4988); (5870, 5872); (6112, 6121); (6128, 6137);
   (6160, 6169); (6470, 6479); (6608, 6618); (6784, 6793); (6800, 6809);
   (6992, 7001); (7088, 7097); (7232, 7241); (7248, 7257); (8304, 8304);
   (8308, 8313); (8320, 8329); (8528, 8578); (8581, 8585); (9312, 9371);
   (9450, 9471); (10102, 10131); (11517, 11517); (12295, 12295); (12321, 12329);
   (12344, 12346); (12690, 12693); (12832, 12841); (12872, 12879); (12881, 12895);
   (12928, 12937); (12977, 12991); (13317, 13317); (13443, 13443); (14378, 14378);
   (15181, 15181); (19968, 19968); (19971, 19971); (19975, 19975); (19977, 19977);
   (20061, 20061); (20108, 20108); (20116, 20116); (20118, 20118); (20159, 20160);
   (20191, 20191); (20200, 20200); (20237, 20237); (20336, 20336); (20740, 20740);
   (20806, 20806); (20841, 20841); (20843, 20843); (20845, 20845); (21313, 21313);
   (21315, 21317); (21324, 21324); (21441, 21444); (22235, 22235); (22769, 22769);
   (22777, 22777); (24186, 24186); (24318, 24319); (24332, 24334); (24336, 24336);
   (25342, 25342); (25420, 25420); (26578, 26578); (28422, 28422); (29590, 29590);
   (30334, 30334); (32902, 32902); (33836, 33836); (36014, 36014); (36019, 36019);
   (36144, 36144); (38433, 38433); (38470, 38470); (38476, 38476); (38520, 38520);
   (38646, 38646); (42528, 42537); (42726, 42735); (43056, 43061); (43216, 43225);
   (43264, 43273); (43472, 43481); (43504, 43513); (43600, 43609); (44016, 44025);
   (63851, 63851); (63859, 63859); (63864, 63864); (63922, 63922); (63953, 63953);
   (63955, 63955); (63997, 63997); (65296, 65305); (65799, 65843); (65856, 65912);
   (65930, 65931); (66273, 66299); (66336, 66339); (66369, 66369); (66378, 66378);
   (66513, 66517); (66720, 66729); (67672, 67679); (67705, 67711); (67751, 67759);
   (67835, 67839); (67862, 67867); (68028, 68029); (68032, 68047); (68050, 68095);
   (68160, 68168); (68221, 68222); (68253, 68255); (68331, 68335); (68440, 68447);
   (68472, 68479); (68521, 68527); (68858, 68863); (68912, 68921); (69216, 69246);
   (69405, 69414); (69457, 69460); (69573, 69579); (69714, 69743); (69872, 69881);
   (69942, 69951); (70096, 70105); (70113, 70132); (70384, 70393); (70736, 70745);
   (70864, 70873); (71248, 71257); (71360, 71369); (71472, 71483); (71904, 71922);
   (72016, 72025); (72784, 72812); (73040, 73049); (73120, 73129); (73664, 73684);
   (74752, 74862); (92768, 92777); (92864, 92873); (93008, 93017); (93019, 93025);
   (93824, 93846); (119520, 119539); (119648, 119672); (120782, 120831); (123200, 123209);
   (123632, 123641); (125127, 125135); (125264, 125273); (126065, 126123); (126125, 126127);
   (126129, 126132); (126209, 126253); (126255, 126269); (127232, 127244); (130032, 130041);
   (131073, 131073); (131172, 131172); (131298, 131298); (131361, 131361); (133418, 133418);
   (133507, 133507); (133516, 133516); (133532, 133532); (133866, 133866); (133885, 133885);
   (133913, 133913); (140176, 140176); (141720, 141720); (146203, 146203); (156269, 156269);
   (194704, 194704)]%N.

(** The characters [c] with [c.isalpha()], as ranges of code points. *)
Definition alpha_ranges : list (N * N) :=
  [(65, 90); (97, 122); (170, 170); (181, 181); (186, 186);
   (192, 214); (216, 246); (248, 705); (710, 721); (736, 740);
   (748, 748); (750, 750); (880, 884); (886, 887); (890, 893);
   (895, 895); (902, 902); (904, 906); (908, 908); (910, 929);
   (931, 1013); (1015, 1153); (1162, 1327); (1329, 1366); (1369, 1369);
   (1376, 1416); (1488, 1514); (1519, 1522); (1568, 1610); (1646, 1647);
   (1649, 1747); (1749, 1749); (1765, 1766); (1774, 1775); (1786, 1788);
   (1791, 1791); (1808, 1808); (1810, 1839); (1869, 1957); (1969, 1969);
   (1994, 2026); (2036, 2037); (2042, 2042); (2048, 2069); (2074, 2074);
   (2084, 2084); (2088, 2088); (2112, 2136); (2144, 2154); (2160, 2183);
   (2185, 2190); (2208, 2249); (2308, 2361); (2365, 2365); (2384, 2384);
   (2392, 2401); (2417, 2432); (2437, 2444); (2447, 2448); (2451, 2472);
   (2474, 2480); (2482, 2482); (2486, 2489); (2493, 2493); (2510, 2510);
   (2524, 2525); (2527, 2529); (2544, 2545); (2556, 2556); (2565, 2570);
   (2575, 2576); (2579, 2600); (2602, 2608); (2610, 2611); (2613, 2614);
   (2616, 2617); (2649, 2652); (2654, 2654); (2674, 2676); (2693, 2701);
   (2703, 2705); (2707, 2728); (2730, 2736); (2738, 2739); (2741, 2745);
   (2749, 2749); (2768, 2768); (2784, 2785); (2809, 2809); (2821, 2828);
   (2831, 2832); (2835, 2856); (2858, 2864); (2866, 2867); (2869, 2873);
   (2877, 2877); (2908, 2909); (2911, 2913); (2929, 2929); (2947, 2947);
   (2949, 2954); (2958, 2960); (2962, 2965); (2969, 2970); (2972, 2972);
   (2974, 2975); (2979, 2980); (2984, 2986); (2990, 3001); (3024, 3024);
   (3077, 3084); (3086, 3088); (3090, 3112); (3114, 3129); (3133, 3133);
   (3160, 3162); (3165, 3165); (3168, 3169); (3200, 3200); (3205, 3212);
   (3214, 3216); (3218, 3240); (3242, 3251); (3253, 3257); (3261, 3261);
   (3293, 3294); (3296, 3297); (3313, 3314); (3332, 3340); (3342, 3344);
   (3346, 3386); (3389, 3389); (3406, 3406); (3412, 3414); (3423, 3425);
   (3450, 3455); (3461, 3478); (3482, 3505); (3507, 3515); (3517, 3517);
   (3520, 3526); (3585, 3632); (3634, 3635); (3648, 3654); (3713, 3714);
   (3716, 3716); (3718, 3722); (3724, 3747); (3749, 3749); (3751, 3760);
   (3762, 3763); (3773, 3773); (3776, 3780); (3782, 3782); (3804, 3807);
   (3840, 3840); (3904, 3911); (3913, 3948); (3976, 3980); (4096, 4138);
   (4159, 4159); (4176, 4181); (4186, 4189); (4193, 4193); (4197, 4198);
   (4206, 4208); (4213, 4225); (4238, 4238); (4256, 4293); (4295, 4295);
   (4301, 4301); (4304, 4346); (4348, 4680); (4682, 4685); (4688, 4694);
   (4696, 4696); (4698, 4701); (4704, 4744); (4746, 4749); (4752, 4784);
   (4786, 4789); (4792, 4798); (4800, 4800); (4802, 4805); (4808, 4822);
   (4824, 4880); (4882, 4885); (4888, 4954); (4992, 5007); (5024, 5109);
   (5112, 5117); (5121, 5740); (5743, 5759); (5761, 5786); (5792, 5866);
   (5873, 5880); (5888, 5905); (5919, 5937); (5952, 5969); (5984, 5996);
   (5998, 6000); (6016, 6067); (6103, 6103); (6108, 6108); (6176, 6264);
   (6272, 6276); (6279, 6312); (6314, 6314); (6320, 6389); (6400, 6430);
   (6480, 6509); (6512, 6516); (6528, 6571); (6576, 6601); (6656, 6678);
   (6688, 6740); (6823, 6823); (6917, 6963); (6981, 6988); (7043, 7072);
   (7086, 7087); (7098, 7141); (7168, 7203); (7245, 7247); (7258, 7293);
   (7296, 7304); (7312, 7354); (7357, 7359); (7401, 7404); (7406, 7411);
   (7413, 7414); (7418, 7418); (7424, 7615); (7680, 7957); (7960, 7965);
   (7968, 8005); (8008, 8013); (8016, 8023); (8025, 8025); (8027, 8027);
   (8029, 8029); (8031, 8061); (8064, 8116); (8118, 8124); (8126, 8126);
   (8130, 8132); (8134, 8140); (8144, 8147); (8150, 8155); (8160, 8172);
   (8178, 8180); (8182, 8188); (8305, 8305); (8319, 8319); (8336, 8348);
   (8450, 8450); (8455, 8455); (8458, 8467); (8469, 8469); (8473, 8477);
   (8484, 8484); (8486, 8486); (8488, 8488); (8490, 8493); (8495, 8505);
   (8508, 8511); (8517, 8521); (8526, 8526); (8579, 8580); (11264, 11492);
   (11499, 11502); (11506, 11507); (11520, 11557); (11559, 11559); (11565, 11565);
   (11568, 11623); (11631, 11631); (11648, 11670); (11680, 11686); (11688, 11694);
   (11696, 11702); (11704, 11710); (11712, 11718); (11720, 11726); (11728, 11734);
   (11736, 11742); (11823, 11823); (12293, 12294); (12337, 12341); (12347, 12348);
   (12353, 12438); (12445, 12447); (12449, 12538); (12540, 12543); (12549, 12591);
   (12593, 12686); (12704, 12735); (12784, 12799); (13312, 19903); (19968, 42124);
   (42192, 42237); (42240, 42508); (42512, 42527); (42538, 42539); (42560, 42606);
   (42623, 42653); (42656, 42725); (42775, 42783); (42786, 42888); (42891, 42954);
   (42960, 42961); (42963, 42963); (42965, 42969); (42994, 43009); (43011, 43013);
   (43015, 43018); (43020, 43042); (43072, 43123); (43138, 43187); (43250, 43255);
   (43259, 43259); (43261, 43262); (43274, 43301); (43312, 43334); (43360, 43388);
   (43396, 43442); (43471, 43471); (43488, 43492); (43494, 43503); (43514, 43518);
   (43520, 43560); (43584, 43586); (43588, 43595); (43616, 43638); (43642, 43642);
   (43646, 43695); (43697, 43697); (43701, 43702); (43705, 43709); (43712, 43712);
   (43714, 43714); (43739, 43741); (43744, 43754); (43762, 43764); (43777, 43782);
   (43785, 43790); (43793, 43798); (43808, 43814); (43816, 43822); (43824, 43866);
   (43868, 43881); (43888, 44002); (44032, 55203); (55216, 55238); (55243, 55291);
   (63744, 64109); (64112, 64217); (64256, 64262); (64275, 64279); (64285, 64285);
   (64287, 64296); (64298, 64310); (64312, 64316); (64318, 64318); (64320, 64321);
   (64323, 64324); (64326, 64433); (64467, 64829); (64848, 64911); (64914, 64967);
   (65008, 65019); (65136, 65140); (65142, 65276); (65313, 65338); (65345, 65370);
   (65382, 65470); (65474, 65479); (65482, 65487); (65490, 65495); (65498, 65500);
   (65536, 65547); (65549, 65574); (65576, 65594); (65596, 65597); (65599, 65613);
   (65616, 65629); (65664, 65786); (66176, 66204); (66208, 66256); (66304, 66335);
   (66349, 66368); (66370, 66377); (66384, 66421); (66432, 66461); (66464, 66499);
   (66504, 66511); (66560, 66717); (66736, 66771); (66776, 66811); (66816, 66855);
   (66864, 66915); (66928, 66938); (66940, 66954); (66956, 66962); (66964, 66965);
   (66967, 66977); (66979, 66993); (66995, 67001); (67003, 67004); (67072, 67382);
   (67392, 67413); (67424, 67431); (67456, 67461); (67463, 67504); (67506, 67514);
   (67584, 67589); (67592, 67592); (67594, 67637); (67639, 67640); (67644, 67644);
   (67647, 67669); (67680, 67702); (67712, 67742); (67808, 67826); (67828, 67829);
   (67840, 67861); (67872, 67897); (67968, 68023); (68030, 68031); (68096, 68096);
   (68112, 68115); (68117, 68119); (68121, 68149); (68192, 68220); (68224, 68252);
   (68288, 68295); (68297, 68324); (68352, 68405); (68416, 68437); (68448, 68466);
   (68480, 68497); (68608, 68680); (68736, 68786); (68800, 68850); (68864, 68899);
   (69248, 69289); (69296, 69297); (69376, 69404); (69415, 69415); (69424, 69445);
   (69488, 69505); (69552, 69572); (69600, 69622); (69635, 69687); (69745, 69746);
   (69749, 69749); (69763, 69807); (69840, 69864); (69891, 69926); (69956, 69956);
   (69959, 69959); (69968, 70002); (70006, 70006); (70019, 70066); (70081, 70084);
   (70106, 70106); (70108, 70108); (70144, 70161); (70163, 70187); (70272, 70278);
   (70280, 70280); (70282, 70285); (70287, 70301); (70303, 70312); (70320, 70366);
   (70405, 70412); (70415, 70416); (70419, 70440); (70442, 70448); (70450, 70451);
   (70453, 70457); (70461, 70461); (70480, 70480); (70493, 70497); (70656, 70708);
   (70727, 70730); (70751, 70753); (70784, 70831); (70852, 70853); (70855, 70855);
   (71040, 71086); (71128, 71131); (71168, 71215); (71236, 71236); (71296, 71338);
   (71352, 71352); (71424, 71450); (71488, 71494); (71680, 71723); (71840, 71903);
   (71935, 71942); (71945, 71945); (71948, 71955); (71957, 71958); (71960, 71983);
   (71999, 71999); (72001, 72001); (72096, 72103); (72106, 72144); (72161, 72161);
   (72163, 72163); (72192, 72192); (72203, 72242); (72250, 72250); (72272, 72272);
   (72284, 72329); (72349, 72349); (72368, 72440); (72704, 72712); (72714, 72750);
   (72768, 72768); (72818, 72847); (72960, 72966); (72968, 72969); (72971, 73008);
   (73030, 73030); (73056, 73061); (73063, 73064); (73066, 73097); (73112, 73112);
   (73440, 73458); (73648, 73648); (73728, 74649); (74880, 75075); (77712, 77808);
   (77824, 78894); (82944, 83526); (92160, 92728); (92736, 92766); (92784, 92862);
   (92880, 92909); (92928, 92975); (92992, 92995); (93027, 93047); (93053, 93071);
   (93760, 93823); (93952, 94026); (94032, 94032); (94099, 94111); (94176, 94177);
   (94179, 94179); (94208, 100343); (100352, 101589); (101632, 101640); (110576, 110579);
   (110581, 110587); (110589, 110590); (110592, 110882); (110928, 110930); (110948, 110951);
   (110960, 111355); (113664, 113770); (113776, 113788); (113792, 113800); (113808, 113817);
   (119808, 119892); (119894, 119964); (119966, 119967); (119970, 119970); (119973, 119974);
   (119977, 119980); (119982, 119993); (119995, 119995); (119997, 120003); (120005, 120069);
   (120071, 120074); (120077, 120084); (120086, 120092); (120094, 120121); (120123, 120126);
   (120128, 120132); (120134, 120134); (120138, 120144); (120146, 120485); (120488, 120512);
   (120514, 120538); (120540, 120570); (120572, 120596); (120598, 120628); (120630, 120654);
   (120656, 120686); (120688, 120712); (120714, 120744); (120746, 120770); (120772, 120779);
   (122624, 122654); (123136, 123180); (123191, 123197); (123214, 123214); (123536, 123565);
   (123584, 123627); (124896, 124902); (124904, 124907); (124909, 124910); (124912, 124926);
   (124928, 125124); (125184, 125251); (125259, 125259); (126464, 126467); (126469, 126495);
   (126497, 126498); (126500, 126500); (126503, 126503); (126505, 126514); (126516, 126519);
   (126521, 126521); (126523, 126523); (126530, 126530); (126535, 126535); (126537, 126537);
   (126539, 126539); (126541, 126543); (126545, 126546); (126548, 126548); (126551, 126551);
   (126553, 126553); (126555, 126555); (126557, 126557); (126559, 126559); (126561, 126562);
   (126564, 126564); (126567, 126570); (126572, 126578); (126580, 126583); (126585, 126588);
   (126590, 126590); (126592, 126601); (126603, 126619); (126625, 126627); (126629, 126633);
   (126635, 126651); (131072, 173791); (173824, 177976); (177984, 178205); (178208, 183969);
   (183984, 191456); (194560, 195101); (196608, 201546)]%N.

(** The characters whose upper case is one other character, in runs
    [(first, last, step, upper of first)]: every [step]-th character from
    [first] to [last] maps to the character at the same distance from the
    upper case of [first]. *)
Definition upper_runs : list (N * N * N * N) :=
  [(97, 122, 1, 65); (181, 181, 1, 924); (224, 246, 1, 192);
   (248, 254, 1, 216); (255, 255, 1, 376); (257, 303, 2, 256);
   (305, 305, 1, 73); (307, 311, 2, 306); (314, 328, 2, 313);
   (331, 375, 2, 330); (378, 382, 2, 377); (383, 383, 1, 83);
   (384, 384, 1, 579); (387, 389, 2, 386); (392, 392, 1, 391);
   (396, 396, 1, 395); (402, 402, 1, 401); (405, 405, 1, 502);
   (409, 409, 1, 408); (410, 410, 1, 573); (414, 414, 1, 544);
   (417, 421, 2, 416); (424, 424, 1, 423); (429, 429, 1, 428);
   (432, 432, 1, 431); (436, 438, 2, 435); (441, 441, 1, 440);
   (445, 445, 1, 444); (447, 447, 1, 503); (453, 453, 1, 452);
   (454, 454, 1, 452); (456, 456, 1, 455); (457, 457, 1, 455);
   (459, 459, 1, 458); (460, 460, 1, 458); (462, 476, 2, 461);
   (477, 477, 1, 398); (479, 495, 2, 478); (498, 498, 1, 497);
   (499, 499, 1, 497); (501, 501, 1, 500); (505, 543, 2, 504);
   (547, 563, 2, 546); (572, 572, 1, 571); (575, 576, 1, 11390);
   (578, 578, 1, 577); (583, 591, 2, 582); (592, 592, 1, 11375);
   (593, 593, 1, 11373); (594, 594, 1, 11376); (595, 595, 1, 385);
   (596, 596, 1, 390); (598, 599, 1, 393); (601, 601, 1, 399);
   (603, 603, 1, 400); (604, 604, 1, 42923); (608, 608, 1, 403);
   (609, 609, 1, 42924); (611, 611, 1, 404); (613, 613, 1, 42893);
   (614, 614, 1, 42922); (616, 616, 1, 407); (617, 617, 1, 406);
   (618, 618, 1, 42926); (619, 619, 1, 11362); (620, 620, 1, 42925);
   (623, 623, 1, 412); (625, 625, 1, 11374); (626, 626, 1, 413);
   (629, 629, 1, 415); (637, 637, 1, 11364); (640, 640, 1, 422);
   (642, 642, 1, 42949); (643, 643, 1, 425); (647, 647, 1, 42929);
   (648, 648, 1, 430); (649, 649, 1, 580); (650, 651, 1, 433);
   (652, 652, 1, 581); (658, 658, 1, 439); (669, 669, 1, 42930);
   (670, 670, 1, 42928); (837, 837, 1, 921); (881, 883, 2, 880);
   (887, 887, 1, 886); (891, 893, 1, 1021); (940, 940, 1, 902);
   (941, 943, 1, 904); (945, 961, 1, 913); (962, 962, 1, 931);
   (963, 971, 1, 931); (972, 972, 1, 908); (973, 974, 1, 910);
   (976, 976, 1, 914); (977, 977, 1, 920); (981, 981, 1, 934);
   (982, 982, 1, 928); (983, 983, 1, 975); (985, 1007, 2, 984);
   (1008, 1008, 1, 922); (1009, 1009, 1, 929); (1010, 1010, 1, 1017);
   (1011, 1011, 1, 895); (1013, 1013, 1, 917); (1016, 1016, 1, 1015);
   (1019, 1019, 1, 1018); (1072, 1103, 1, 1040); (1104, 1119, 1, 1024);
   (1121, 1153, 2, 1120); (1163, 1215, 2, 1162); (1218, 1230, 2, 1217);
   (1231, 1231, 1, 1216); (1233, 1327, 2, 1232); (1377, 1414, 1, 1329);
   (4304, 4346, 1, 7312); (4349, 4351, 1, 7357); (5112, 5117, 1, 5104);
   (7296, 7296, 1, 1042); (7297, 7297, 1, 1044); (7298, 7298, 1, 1054);
   (7299, 7300, 1, 1057); (7301, 7301, 1, 1058); (7302, 7302, 1, 1066);
   (7303, 7303, 1, 1122); (7304, 7304, 1, 42570); (7545, 7545, 1, 42877);
   (7549, 7549, 1, 11363); (7566, 7566, 1, 42950); (7681, 7829, 2, 7680);
   (7835, 7835, 1, 7776); (7841, 7935, 2, 7840); (7936, 7943, 1, 7944);
   (7952, 7957, 1, 7960); (7968, 7975, 1, 7976); (7984, 7991, 1, 7992);
   (8000, 8005, 1, 8008); (8017, 8023, 2, 8025); (8032, 8039, 1, 8040);
   (8048, 8049, 1, 8122); (8050, 8053, 1, 8136); (8054, 8055, 1, 8154);
   (8056, 8057, 1, 8184); (8058, 8059, 1, 8170); (8060, 8061, 1, 8186);
   (8112, 8113, 1, 8120); (8126, 8126, 1, 921); (8144, 8145, 1, 8152);
   (8160, 8161, 1, 8168); (8165, 8165, 1, 8172); (8526, 8526, 1, 8498);
   (8560, 8575, 1, 8544); (8580, 8580, 1, 8579); (9424, 9449, 1, 9398);
   (11312, 11359, 1, 11264); (11361, 11361, 1, 11360); (11365, 11365, 1, 570);
   (11366, 11366, 1, 574); (11368, 11372, 2, 11367); (11379, 11379, 1, 11378);
   (11382, 11382, 1, 11381); (11393, 11491, 2, 11392); (11500, 11502, 2, 11499);
   (11507, 11507, 1, 11506); (11520, 11557, 1, 4256); (11559, 11559, 1, 4295);
   (11565, 11565, 1, 4301); (42561, 42605, 2, 42560); (42625, 42651, 2, 42624);
   (42787, 42799, 2, 42786); (42803, 42863, 2, 42802); (42874, 42876, 2, 42873);
   (42879, 42887, 2, 42878); (42892, 42892, 1, 42891); (42897, 42899, 2, 42896);
   (42900, 42900, 1, 42948); (42903, 42921, 2, 42902); (42933, 42947, 2, 42932);
   (42952, 42954, 2, 42951); (42961, 42961, 1, 42960); (42967, 42969, 2, 42966);
   (42998, 42998, 1, 42997); (43859, 43859, 1, 42931); (43888, 43967, 1, 5024);
   (65345, 65370, 1, 65313); (66600, 66639, 1, 66560); (66776, 66811, 1, 66736);
   (66967, 66977, 1, 66928); (66979, 66993, 1, 66940); (66995, 67001, 1, 66956);
   (67003, 67004, 1, 66964); (68800, 68850, 1, 68736); (71872, 71903, 1, 71840);
   (93792, 93823, 1, 93760); (125218, 125251, 1, 125184)]%N.

(** The characters whose upper case is several characters. *)
Definition upper_special : list (N * list N) :=
  [(223, [83; 83]); (329, [700; 78]); (496, [74; 780]);
   (912, [921; 776; 769]); (944, [933; 776; 769]); (1415, [1333; 1362]);
   (7830, [72; 817]); (7831, [84; 776]); (7832, [87; 778]);
   (7833, [89; 778]); (7834, [65; 702]); (8016, [933; 787]);
   (8018, [933; 787; 768]); (8020, [933; 787; 769]); (8022, [933; 787; 834]);
   (8064, [7944; 921]); (8065, [7945; 921]); (8066, [7946; 921]);
   (8067, [7947; 921]); (8068, [7948; 921]); (8069, [7949; 921]);
   (8070, [7950; 921]); (8071, [7951; 921]); (8072, [7944; 921]);
   (8073, [7945; 921]); (8074, [7946; 921]); (8075, [7947; 921]);
   (8076, [7948; 921]); (8077, [7949; 921]); (8078, [7950; 921]);
   (8079, [7951; 921]); (8080, [7976; 921]); (8081, [7977; 921]);
   (8082, [7978; 921]); (8083, [7979; 921]); (8084, [7980; 921]);
   (8085, [7981; 921]); (8086, [7982; 921]); (8087, [7983; 921]);
   (8088, [7976; 921]); (8089, [7977; 921]); (8090, [7978; 921]);
   (8091, [7979; 921]); (8092, [7980; 921]); (8093, [7981; 921]);
   (8094, [7982; 921]); (8095, [7983; 921]); (8096, [8040; 921]);
   (8097, [8041; 921]); (8098, [8042; 921]); (8099, [8043; 921]);
   (8100, [8044; 921]); (8101, [8045; 921]); (8102, [8046; 921]);
   (8103, [8047; 921]); (8104, [8040; 921]); (8105, [8041; 921]);
   (8106, [8042; 921]); (8107, [8043; 921]); (8108, [8044; 921]);
   (8109, [8045; 921]); (8110, [8046; 921]); (8111, [8047; 921]);
   (8114, [8122; 921]); (8115, [913; 921]); (8116, [902; 921]);
   (8118, [913; 834]); (8119, [913; 834; 921]); (8124, [913; 921]);
   (8130, [8138; 921]); (8131, [919; 921]); (8132, [905; 921]);
   (8134, [919; 834]); (8135, [919; 834; 921]); (8140, [919; 921]);
   (8146, [921; 776; 768]); (8147, [921; 776; 769]); (8150, [921; 834]);
   (8151, [921; 776; 834]); (8162, [933; 776; 768]); (8163, [933; 776; 769]);
   (8164, [929; 787]); (8166, [933; 834]); (8167, [933; 776; 834]);
   (8178, [8186; 921]); (8179, [937; 921]); (8180, [911; 921]);
   (8182, [937; 834]); (8183, [937; 834; 921]); (8188, [937; 921]);
   (64256, [70; 70]); (64257, [70; 73]); (64258, [70; 76]);
   (64259, [70; 70; 73]); (64260, [70; 70; 76]); (64261, [83; 84]);
   (64262, [83; 84]); (64275, [1348; 1350]); (64276, [1348; 1333]);
   (64277, [1348; 1339]); (64278, [1358; 1350]); (64279, [1348; 1341])]%N.

Definition in_ranges (c : N) (table : list (N * N)) : bool :=
  existsb (fun r => (fst r <=? c)%N && (c <=? snd r)%N) table.

Definition isnumeric_char (c : N) : bool := in_ranges c numeric_ranges.

Definition isalpha_char (c : N) : bool := in_ranges c alpha_ranges.

Definition in_run (c : N) (r : N * N * N * N) : bool :=
  let '(first, last, step, _) := r in
  (first <=? c)%N && (c <=? last)%N && ((c - first) mod step =? 0)%N.

(** [c.upper()] *)
Definition upper_char (c : N) : list N :=
  match find (fun e => (fst e =? c)%N) upper_special with
  | Some e => snd e
  | None =>
      match find (in_run c) upper_runs with
      | Some (first, _, _, target) => [(target + (c - first))%N]
      | None => [c]
      end
  end.

(** [s.isnumeric()]: false on the empty string. *)
Definition isnumeric (s : str) : bool :=
  match s with
  | [] => false
  | _ => forallb isnumeric_char s
  end.

(** [s.upper()] *)
Definition upper (s : str) : str := flat_map upper_char s.

(** [c in s] for a one-character [c]. *)
Definition contains (c : N) (s : str) : bool := existsb (N.eqb c) s.

(** [s.split(c)] for a one-character separator. *)
Fixpoint split (c : N) (s : str) : list str :=
  match s with
  | [] => [[]]
  | a :: s' =>
      if (a =? c)%N then [] :: split c s'
      else match split c s' with
           | [] => [[a]]
           | p :: ps => (a :: p) :: ps
           end
  end.

(** [a == b] *)
Fixpoint eqb (a b : str) : bool :=
  match a, b with
  | [], [] => true
  | x :: a', y :: b' => (x =? y)%N && eqb a' b'
  | _, _ => false
  end.

(** The code points of an ASCII literal. *)
Definition text (s : string) : str :=
  map N_of_ascii (list_ascii_of_string s).

(** The code point of ".". *)
Definition dot : N := 46.

(** Lines 58-70 on code points. *)
Definition normalize_ticker (ticker_input : str) : str :=
  if isnumeric ticker_input then
    (ticker_input ++ text " JT EQUITY")%list
  else if contains dot ticker_input then
    let parts := split dot ticker_input in
    let code := nth 0 parts [] in
    let market_suffix :=
      if (1 <? length parts)%nat then upper (nth 1 parts []) else [] in
    if eqb market_suffix (text "T") then (code ++ text " JT EQUITY")%list
    else (code ++ text " EQUITY")%list
  else
    (upper ticker_input ++ text " US EQUITY")%list.



(** Every byte of the string is below 128. *)
Definition ascii_only (s : string) : bool :=
  forallb (fun c => (N_of_ascii c <? 128)%N) (list_ascii_of_string s).


End Unicode.

(** * Properties *)

(** ** The ticker normaliser *)

(** [split] cuts at the first separator. *)
Lemma split_first (c : ascii) (s : string) :
  split c s
  = before c s :: (if contains c s then split c (after c s) else []).
Proof.
  unfold contains.
  induction s as [| a s IH]; [reflexivity |].
  simpl. rewrite (Ascii.eqb_sym c a).
  destruct (Ascii.eqb a c); simpl; [reflexivity |].
  now rewrite IH.
Qed.

Lemma split_head (c : ascii) (s : string) : nth 0 (split c s) "" = before c s.
Proof. now rewrite split_first. Qed.

Lemma split_second (c : ascii) (s : string) :
  contains c s = true ->
  (1 <? length (split c s))%nat = true
  /\ nth 1 (split c s) "" = before c (after c s).
Proof.
  intros H. rewrite split_first, H. split.
  - rewrite (split_first c (after c s)). reflexivity.
  - simpl. apply split_head.
Qed.

(** C3, as the code has it.  For an input that is not purely numeric and
    contains a dot, the code is the text before the first dot and the
    suffix is the text between the first dot and the next one (up to the
    end of the input when there is no other dot), upper-cased; the
    normalised ticker is the code followed by " JT EQUITY" when that suffix
    is "T" and by " EQUITY" otherwise.  Input "7203.X" gives "7203 EQUITY". *)
Theorem normalize_dotted_ticker :
  (forall ticker_input,
      isnumeric ticker_input = false ->
      contains "." ticker_input = true ->
      let code := before "." ticker_input in
      let suffix := upper (before "." (after "." ticker_input)) in
      normalize_ticker ticker_input
      = if suffix =? "T" then code ++ " JT EQUITY" else code ++ " EQUITY")
  /\ normalize_ticker "7203.X" = "7203 EQUITY".
Proof.
  split; [| reflexivity].
  intros ticker_input Hnum Hdot. cbv zeta.
  unfold normalize_ticker. rewrite Hnum, Hdot.
  destruct (split_second "." ticker_input Hdot) as [Hlen Hsnd].
  rewrite Hlen, Hsnd, split_head. reflexivity.
Qed.

Lemma normalize_dotted_ticker_witness :
  normalize_ticker "7203.t.x"
  = (if upper (before "." (after "." "7203.t.x")) =? "T"
     then before "." "7203.t.x" ++ " JT EQUITY"
     else before "." "7203.t.x" ++ " EQUITY").
Proof.
  apply (proj1 normalize_dotted_ticker "7203.t.x"); reflexivity.
Defined.

(** C3 as stated fails on an input with two dots: all the text after the
    first dot of "7203.T.X" is "T.X", which is not "T", yet the code answers
    "7203 JT EQUITY". *)
Lemma dotted_rule_as_specified_fails :
  isnumeric "7203.T.X" = false
  /\ contains "." "7203.T.X" = true
  /\ normalize_ticker "7203.T.X" = "7203 JT EQUITY"
  /\ dotted_rule_as_specified "7203.T.X" = "7203 EQUITY"
  /\ normalize_ticker "7203.T.X" <> dotted_rule_as_specified "7203.T.X".
Proof.
  repeat split; try reflexivity. discriminate.
Qed.

Arguments Unicode.isnumeric_char : simpl never.
Arguments Unicode.isalpha_char : simpl never.
Arguments Unicode.upper_char : simpl never.






(** The other normaliser examples of the specification. *)
Example normalize_7203 : normalize_ticker "7203" = "7203 JT EQUITY".
Proof. reflexivity. Qed.

Example normalize_7203_T : normalize_ticker "7203.T" = "7203 JT EQUITY".
Proof. reflexivity. Qed.

(** ** The function in terms of its [try] block *)

Lemma get_bloomberg_price_by_flow session ticker_input :
  get_bloomberg_price session ticker_input
  = outcome_of_flow ticker_input (request_flow session ticker_input entry_frame).
Proof.
  unfold get_bloomberg_price, get_bloomberg_price_body, outcome_of_flow.
  change ((session_call Call_Session (Returns tt) ;;
           assign (set_price None) ;;
           assign (set_bloomberg_ticker_used None) ;;
           assign (set_error_message None) ;;
           try_except_finally (request_flow session ticker_input)
             (except_block ticker_input) finally_block ;;
           p <- get price ;;
           t <- get bloomberg_ticker_used ;;
           e <- get error_message ;;
           ret (p, t, e)) new_frame)
    with ((try_except_finally (request_flow session ticker_input)
             (except_block ticker_input) finally_block ;;
           p <- get price ;;
           t <- get bloomberg_ticker_used ;;
           e <- get error_message ;;
           ret (p, t, e)) entry_frame).
  unfold bind at 1. unfold try_except_finally.
  destruct (request_flow session ticker_input entry_frame) as [[[] | | | r | e] s];
    reflexivity.
Qed.

(** ** Invariants of the statements *)

Section Keeps.

Variable I : frame -> Prop.

Lemma keeps_weaken A (m : M A) : keeps I settled m -> keeps I no_return m.
Proof.
  intros H s Hs. destruct (H s Hs) as [Hc HI]. split; [| exact HI].
  destruct (fst (m s)); simpl in *; tauto.
Qed.

Lemma keeps_ret A (a : A) : keeps I settled (ret a).
Proof. intros s Hs. simpl. tauto. Qed.

Lemma keeps_get A (f : frame -> A) : keeps I settled (get f).
Proof. intros s Hs. simpl. tauto. Qed.

Lemma keeps_eval A (o : outcome A) : keeps I settled (eval o).
Proof. intros s Hs. unfold eval. destruct o; simpl; tauto. Qed.

Lemma keeps_assign (f : frame -> frame) :
  (forall s, I s -> I (f s)) -> keeps I settled (assign f).
Proof. intros Hf s Hs. simpl. split; [exact Logic.I | now apply Hf]. Qed.

Lemma keeps_break A : keeps I no_return (@break_ A).
Proof. intros s Hs. simpl. tauto. Qed.

Lemma keeps_continue A : keeps I no_return (@continue_ A).
Proof. intros s Hs. simpl. tauto. Qed.

Lemma keeps_bind A B (m : M A) (k : A -> M B) :
  keeps I no_return m -> (forall a, keeps I no_return (k a)) ->
  keeps I no_return (bind m k).
Proof.
  intros Hm Hk s Hs. unfold bind.
  destruct (Hm s Hs) as [Hc HI]. destruct (m s) as [c s']. simpl in Hc, HI.
  destruct c; simpl; try tauto. now apply Hk.
Qed.

Lemma keeps_bind_settled A B (m : M A) (k : A -> M B) :
  keeps I settled m -> (forall a, keeps I settled (k a)) ->
  keeps I settled (bind m k).
Proof.
  intros Hm Hk s Hs. unfold bind.
  destruct (Hm s Hs) as [Hc HI]. destruct (m s) as [c s']. simpl in Hc, HI.
  destruct c; simpl; try tauto. now apply Hk.
Qed.

Lemma keeps_session_call A (c : call) (o : outcome A) :
  (forall s, I s -> I (log c s)) -> keeps I settled (session_call c o).
Proof.
  intros Hc. unfold session_call. apply keeps_bind_settled.
  - now apply keeps_assign.
  - intros _. apply keeps_eval.
Qed.

(** A [for] loop consumes the [break] and [continue] of its body. *)
Lemma keeps_for_each X (xs : list X) (body : X -> M unit) :
  (forall x, keeps I no_return (body x)) -> keeps I settled (for_each xs body).
Proof.
  intros Hbody. induction xs as [| x xs IH]; intros s Hs; simpl.
  - tauto.
  - destruct (Hbody x s Hs) as [Hc HI]. destruct (body x s) as [c s'].
    simpl in Hc, HI. destruct c; simpl; try tauto; now apply IH.
Qed.

End Keeps.

Ltac keeps_atom :=
  first [ apply keeps_ret | apply keeps_get | apply keeps_eval
        | apply keeps_assign | apply keeps_session_call ].

Ltac keeps_step :=
  lazymatch goal with
  | |- keeps _ no_return (bind _ _) => apply keeps_bind; [| intro]
  | |- keeps _ settled (bind _ _) => apply keeps_bind_settled; [| intro]
  | |- keeps _ no_return break_ => apply keeps_break
  | |- keeps _ no_return continue_ => apply keeps_continue
  | |- keeps _ settled (for_each _ _) => apply keeps_for_each; intro
  | |- keeps _ no_return (for_each _ _) =>
      apply keeps_weaken; apply keeps_for_each; intro
  | |- keeps _ _ (match ?x with _ => _ end) => destruct x
  | |- keeps _ settled _ => keeps_atom
  | |- keeps _ no_return _ => apply keeps_weaken; keeps_atom
  end.

Lemma literal_prefix_nonempty (c : ascii) (a b : string) :
  String c a ++ b <> "".
Proof. discriminate. Qed.

(** The bodies of the polling loop keep every property of the frame that
    assignments to [price], [request_processed] and [error_message] (of a
    non-empty text) and calls other than [stop] keep. *)
Section Polling.

Variable I : frame -> Prop.
Hypothesis I_price : forall v s, I s -> I (set_price v s).
Hypothesis I_processed : forall v s, I s -> I (set_request_processed v s).
Hypothesis I_error :
  forall v s, v <> "" -> I s -> I (set_error_message (Some v) s).
Hypothesis I_call : forall c s, is_stop c = false -> I s -> I (log c s).

Ltac keeps_side :=
  intros;
  first [ apply I_price; assumption
        | apply I_processed; assumption
        | apply I_call; [reflexivity | assumption]
        | apply I_error; [apply literal_prefix_nonempty | assumption] ].

Ltac keeps_auto := repeat (first [ keeps_step | keeps_side ]).

Lemma keeps_field_exception_body sec_name field_exception :
  keeps I no_return (field_exception_body sec_name field_exception).
Proof. unfold field_exception_body. keeps_auto. Qed.

Lemma keeps_security_error_or_field_data sec_name security_data :
  keeps I no_return (security_error_or_field_data sec_name security_data).
Proof. unfold security_error_or_field_data. keeps_auto. Qed.

Lemma keeps_security_data_body security_data :
  keeps I no_return (security_data_body security_data).
Proof.
  unfold security_data_body. keeps_auto;
    first [ apply keeps_field_exception_body
          | apply keeps_security_error_or_field_data ].
Qed.

Lemma keeps_message_body session msg :
  keeps I no_return (message_body session msg).
Proof.
  unfold message_body. keeps_auto; apply keeps_security_data_body.
Qed.

Lemma keeps_event_body session next :
  keeps I no_return (event_body session next).
Proof.
  unfold event_body. keeps_auto; apply keeps_message_body.
Qed.

(** The polling loop ends normally or with an exception. *)
Lemma keeps_while_not_request_processed session script :
  keeps I settled (while_not_request_processed session script).
Proof.
  induction script as [| next script IH]; intros s Hs; simpl;
    destruct (request_processed s); try (simpl; tauto).
  - destruct (keeps_event_body session (Returns blpapi.timeout_event) s Hs)
      as [_ HI].
    revert HI. unfold event_body, session_call, bind, assign, eval; simpl.
    tauto.
  - destruct (keeps_event_body session next s Hs) as [Hc HI].
    destruct (event_body session next s) as [c s']. simpl in Hc, HI.
    destruct c; simpl; try tauto; now apply IH.
Qed.

Variable ticker_input : string.
Hypothesis I_ticker :
  forall s, I s ->
    I (set_bloomberg_ticker_used (Some (normalize_ticker ticker_input)) s).

Lemma keeps_send_and_poll session :
  keeps I settled (send_and_poll session ticker_input).
Proof.
  unfold send_and_poll. keeps_auto.
  - apply I_ticker; assumption.
  - apply keeps_while_not_request_processed.
Qed.

End Polling.

(** ** The [try] block as a whole *)

Arguments normalize_ticker : simpl never.
Arguments send_and_poll : simpl never.

Lemma normalize_ticker_nonempty ticker_input :
  normalize_ticker ticker_input <> "".
Proof.
  assert (H : forall a c b, a ++ String c b <> "")
    by (intros [| x a] c b; discriminate).
  unfold normalize_ticker.
  repeat match goal with |- context [if ?b then _ else _] => destruct b end;
    apply H.
Qed.

Lemma stops_app (tr : list call) (c : call) :
  stops (tr ++ [c]) = (stops tr + (if is_stop c then 1 else 0))%nat.
Proof.
  unfold stops. rewrite filter_app, length_app. simpl.
  now destruct (is_stop c).
Qed.

(** How the [try] block completes and what it leaves: it never leaves by
    [break] or [continue]; the values it returns early carry no price, no
    ticker and a non-empty error; the session has been stopped once if the
    service failed to open and not at all otherwise. *)
Lemma request_flow_spec session ticker_input :
  let (c, s) := request_flow session ticker_input entry_frame in
  lookup_frame ticker_input s
  /\ stops (calls s) = (if service_open_fails session then 1 else 0)%nat
  /\ match c with
     | Return (p, t, e) => p = None /\ t = None /\ e <> Some ""
     | Break | Continue => False
     | Normal _ | Raise _ => True
     end.
Proof.
  pose (I := fun s => lookup_frame ticker_input s /\ stopped 0 s).
  assert (Hpoll : keeps I settled (send_and_poll session ticker_input)).
  { apply keeps_send_and_poll; unfold I, lookup_frame, stopped; simpl.
    - tauto.
    - tauto.
    - intros v s Hv [[Ht He] Hs]. repeat split; try assumption. congruence.
    - intros c s Hc [[Ht He] Hs]. repeat split; try assumption.
      rewrite stops_app, Hc, Hs. reflexivity.
    - intros s [[Ht He] Hs]. repeat split; try assumption. now right. }
  unfold request_flow, service_open_fails.
  destruct (blpapi.start session) as [[|] | e];
    destruct (blpapi.openService session) as [[|] | e'];
    cbn; unfold lookup_frame;
    try (repeat split; try (now left); try discriminate; reflexivity).
  assert (HI : I (log (Call_openService "//blp/refdata")
                    (log Call_start entry_frame))).
  { unfold I, lookup_frame, stopped. cbn. repeat split.
    - now left.
    - discriminate. }
  destruct (Hpoll _ HI) as [Hc [Hl Hs]].
  match goal with |- context [send_and_poll session ticker_input ?s] =>
    change s with (log (Call_openService "//blp/refdata")
                     (log Call_start entry_frame)) end.
  destruct (send_and_poll session ticker_input _) as [c s].
  simpl in Hc, Hl, Hs. unfold lookup_frame in Hl.
  repeat split; try tauto.
  destruct c; simpl in Hc; tauto.
Qed.

(** The function always returns a result: nothing is raised past it. *)
Lemma get_bloomberg_price_returns session ticker_input :
  exists r, fst (get_bloomberg_price session ticker_input) = Returns r.
Proof.
  rewrite get_bloomberg_price_by_flow.
  pose proof (request_flow_spec session ticker_input) as H.
  destruct (request_flow session ticker_input entry_frame) as [c s].
  destruct H as [_ [_ H]].
  destruct c; simpl; try contradiction; eauto.
Qed.

(** What a result looks like: the ticker is absent or the normalised input,
    and the error is absent or a non-empty text. *)
Lemma get_bloomberg_price_shape session ticker_input p t e tr :
  get_bloomberg_price session ticker_input = (Returns (p, t, e), tr) ->
  (t = None \/ t = Some (normalize_ticker ticker_input)) /\ e <> Some "".
Proof.
  rewrite get_bloomberg_price_by_flow.
  pose proof (request_flow_spec session ticker_input) as H.
  destruct (request_flow session ticker_input entry_frame) as [c s].
  destruct H as [[Ht He] [_ Hc]].
  destruct c as [[] | | | [[p' t'] e'] | x]; simpl; intros Heq;
    try contradiction; inversion Heq; subst.
  - tauto.
  - destruct Hc as [_ [-> Hc]]. split; [now left | assumption].
  - split; [assumption | discriminate].
Qed.

(** ** Session lifecycle *)

(** C1, on the code: the session is stopped once on every path except one.
    When the session starts and the service fails to open, line 42 stops
    the session and the [finally] block stops it again. *)
Theorem stop_count :
  (forall session ticker_input,
      stops (snd (get_bloomberg_price session ticker_input))
      = if service_open_fails session then 2 else 1)
  /\ get_bloomberg_price Sample.open_failure_session "MSFT"
     = (Returns (None, None, Some "Failed to open //blp/refdata service."),
        [Call_Session; Call_start; Call_openService "//blp/refdata";
         Call_stop; Call_stop]).
Proof.
  split; [| reflexivity].
  intros session ticker_input.
  rewrite get_bloomberg_price_by_flow.
  pose proof (request_flow_spec session ticker_input) as H.
  destruct (request_flow session ticker_input entry_frame) as [c s].
  destruct H as [_ [Hs _]].
  assert (Htr : snd (outcome_of_flow ticker_input (c, s))
                = (calls s ++ [Call_stop])%list)
    by (destruct c; reflexivity).
  rewrite Htr, stops_app, Hs. simpl.
  destruct (service_open_fails session); reflexivity.
Qed.

(** ** Exceptions *)

(** C4.  An exception raised inside the [try] block is caught: the function
    returns, the error of its result is the text built from the exception,
    and the price of its result is [None] whatever price the frame held
    when the exception was raised.  No call of the function raises. *)
Theorem exception_is_caught :
  (forall session ticker_input e s,
      request_flow session ticker_input entry_frame = (Raise e, s) ->
      fst (get_bloomberg_price session ticker_input)
      = Returns (None, bloomberg_ticker_used s,
                 Some ("Exception while getting price for " ++ ticker_input
                         ++ ": " ++ e)))
  /\ (forall session ticker_input,
         exists r, fst (get_bloomberg_price session ticker_input) = Returns r).
Proof.
  split.
  - intros session ticker_input e s H.
    rewrite get_bloomberg_price_by_flow, H. reflexivity.
  - exact get_bloomberg_price_returns.
Qed.

(** A price is extracted from a partial response and the next call on the
    event raises: the frame holds the price, the result does not. *)
Lemma exception_is_caught_witness :
  price (snd (request_flow
                (Sample.working_session
                   [Returns (Sample.response_then_failure
                               [Sample.priced "MSFT US EQUITY" 312.5])])
                "MSFT" entry_frame))
  = Some 312.5%float
  /\ fst (get_bloomberg_price
            (Sample.working_session
               [Returns (Sample.response_then_failure
                           [Sample.priced "MSFT US EQUITY" 312.5])])
            "MSFT")
     = Returns (None, Some "MSFT US EQUITY",
                Some "Exception while getting price for MSFT: connection lost").
Proof.
  split; [reflexivity |].
  apply (proj1 exception_is_caught
           (Sample.working_session
              [Returns (Sample.response_then_failure
                          [Sample.priced "MSFT US EQUITY" 312.5])])
           "MSFT" "connection lost"
           (snd (request_flow
                   (Sample.working_session
                      [Returns (Sample.response_then_failure
                                  [Sample.priced "MSFT US EQUITY" 312.5])])
                   "MSFT" entry_frame))).
  reflexivity.
Defined.

(** ** Field exceptions *)

Lemma field_exception_body_reads sec_name fe text s :
  field_error_of sec_name fe = Returns text ->
  field_exception_body sec_name fe s
  = (Normal tt, set_error_message (Some text) s).
Proof.
  unfold field_error_of, field_exception_body, bind, eval, assign.
  destruct (blpapi.errorInfo fe) as [ei |]; [| discriminate].
  destruct (blpapi.fieldId fe) as [fid |]; [| discriminate].
  destruct (blpapi.message ei) as [m |]; [| discriminate].
  intros H. now inversion H.
Qed.

(** Reading a list of field exceptions leaves the text of the last one. *)
Lemma for_each_field_exceptions sec_name arr final text s :
  (forall fe, In fe arr ->
     exists t, field_error_of sec_name fe = Returns t) ->
  field_error_of sec_name final = Returns text ->
  for_each (arr ++ [final])%list (field_exception_body sec_name) s
  = (Normal tt, set_error_message (Some text) s).
Proof.
  intros Hall Hfinal. revert s.
  induction arr as [| fe arr IH]; intros s; cbn [app for_each].
  - now rewrite (field_exception_body_reads _ _ _ _ Hfinal).
  - destruct (Hall fe (or_introl eq_refl)) as [t Ht].
    rewrite (field_exception_body_reads _ _ _ _ Ht), IH.
    + reflexivity.
    + intros fe' Hin. apply Hall. now right.
Qed.

(** C2, as the code has it.  When a record carries a non-empty list of
    field exceptions, each of which can be read, every one of them is
    recorded in turn, so that the error left is that of the last field
    exception of the list; processing continues with the next record. *)
Theorem field_exceptions_record_the_last
    security_data sec_name arr final text records s :
  blpapi.security security_data = Returns sec_name ->
  blpapi.fieldExceptions security_data = Some (arr ++ [final])%list ->
  (forall fe, In fe arr -> exists t, field_error_of sec_name fe = Returns t) ->
  field_error_of sec_name final = Returns text ->
  security_data_body security_data s
  = (Continue, set_error_message (Some text) s)
  /\ for_each (security_data :: records) security_data_body s
     = for_each records security_data_body (set_error_message (Some text) s).
Proof.
  intros Hname Harr Hall Hfinal.
  assert (Hbody : security_data_body security_data s
                  = (Continue, set_error_message (Some text) s)).
  { unfold security_data_body. rewrite Hname, Harr.
    unfold bind at 1. cbn [eval].
    assert (Hlen : (0 <? length (arr ++ [final])%list)%nat = true)
      by (rewrite length_app; simpl; apply Nat.ltb_lt; lia).
    rewrite Hlen. unfold bind.
    now rewrite (for_each_field_exceptions _ _ _ _ _ Hall Hfinal). }
  split; [exact Hbody |].
  cbn [for_each]. now rewrite Hbody.
Qed.

Lemma field_exceptions_record_the_last_witness :
  for_each [Sample.two_field_exceptions; Sample.priced "MSFT US EQUITY" 312.5]
    security_data_body entry_frame
  = for_each [Sample.priced "MSFT US EQUITY" 312.5] security_data_body
      (set_error_message
         (Some "Field Error for MSFT US EQUITY (PX_LAST): Not applicable to this security")
         entry_frame).
Proof.
  apply (field_exceptions_record_the_last Sample.two_field_exceptions
           "MSFT US EQUITY"
           [Sample.field_exception "PX_LAST" "Field not valid"]
           (Sample.field_exception "PX_LAST" "Not applicable to this security")).
  - reflexivity.
  - reflexivity.
  - intros fe [<- | []]. eexists. reflexivity.
  - reflexivity.
Defined.

(** C2 as stated fails on a record with two field exceptions: the error
    recorded is that of the second, not of the first. *)
Lemma first_field_exception_is_overwritten :
  ~ records_first_field_exception Sample.two_field_exceptions entry_frame.
Proof.
  intros H.
  specialize (H "MSFT US EQUITY"
                (Sample.field_exception "PX_LAST" "Field not valid")
                [Sample.field_exception "PX_LAST" "Not applicable to this security"]
                "Field Error for MSFT US EQUITY (PX_LAST): Field not valid"
                eq_refl eq_refl eq_refl).
  discriminate H.
Qed.

(** ** The HTTP endpoint *)

(** C6.  A request with no [ticker] parameter is answered 400 with the
    body [{"error": "Ticker parameter is required"}], and no call is made
    on the provider: no session is created. *)
Theorem missing_ticker_is_rejected session args :
  args_get "ticker" args = None ->
  current_price_api session args
  = (Returns {| body := [("error", JString "Ticker parameter is required")];
                status := 400 |}, []).
Proof.
  intros H. unfold current_price_api. rewrite H. reflexivity.
Qed.

Lemma missing_ticker_is_rejected_witness :
  current_price_api Sample.open_failure_session [("symbol", "MSFT")]
  = (Returns {| body := [("error", JString "Ticker parameter is required")];
                status := 400 |}, []).
Proof.
  apply (missing_ticker_is_rejected Sample.open_failure_session
           [("symbol", "MSFT")]).
  reflexivity.
Defined.

(** C10.  A request whose [ticker] parameter is the empty string is
    answered like one without the parameter, and get_bloomberg_price is not
    called: no call is made on the provider. *)
Theorem empty_ticker_is_rejected session args :
  args_get "ticker" args = Some "" ->
  current_price_api session args
  = (Returns {| body := [("error", JString "Ticker parameter is required")];
                status := 400 |}, [])
  /\ forall args', args_get "ticker" args' = None ->
       current_price_api session args = current_price_api session args'.
Proof.
  intros H. unfold current_price_api. rewrite H. split; [reflexivity |].
  intros args' H'. now rewrite H'.
Qed.

Lemma empty_ticker_is_rejected_witness :
  current_price_api (Sample.working_session []) [("ticker", "")]
  = (Returns {| body := [("error", JString "Ticker parameter is required")];
                status := 400 |}, []).
Proof.
  apply (empty_ticker_is_rejected (Sample.working_session [])
           [("ticker", "")]).
  reflexivity.
Defined.

Lemma nonempty_eqb (s : string) : s <> "" -> (s =? "") = false.
Proof. intros H. now apply String.eqb_neq. Qed.

(** The handler once the parameter is there and not empty. *)
Lemma current_price_api_lookup session args ticker_input :
  args_get "ticker" args = Some ticker_input ->
  ticker_input <> "" ->
  current_price_api session args
  = match get_bloomberg_price session ticker_input with
    | (Raises e, tr) => (Raises e, tr)
    | (Returns (Some p, bloomberg_ticker, error), tr) =>
        (Returns {| body := [("ticker",
                              JString (or_else bloomberg_ticker ticker_input));
                             ("price", JNumber p)];
                    status := 200 |}, tr)
    | (Returns (None, bloomberg_ticker, error), tr) =>
        (Returns
           {| body :=
                [("error",
                  JString
                    (if truthy bloomberg_ticker
                        && differs bloomberg_ticker ticker_input
                     then or_else error
                            ("Could not retrieve price for ticker "
                               ++ ticker_input)
                            ++ " (used Bloomberg ticker: "
                            ++ format bloomberg_ticker ++ ")"
                     else or_else error
                            ("Could not retrieve price for ticker "
                               ++ ticker_input)))];
              status := 404 |}, tr)
    end.
Proof.
  intros Hargs Hne. unfold current_price_api.
  rewrite Hargs, (nonempty_eqb _ Hne).
  destruct (get_bloomberg_price session ticker_input) as [[[[[p |] t] e] | x] tr];
    reflexivity.
Qed.

(** C8.  A lookup that yields no price is answered 404 with the body
    [{"error": message}], where the message is the recorded error if there
    is one and otherwise the fallback naming the raw input, followed by the
    normalised ticker in parentheses exactly when there is one and it
    differs from the raw input. *)
Theorem failed_lookup_is_404 session args ticker_input t e tr :
  args_get "ticker" args = Some ticker_input ->
  ticker_input <> "" ->
  get_bloomberg_price session ticker_input = (Returns (None, t, e), tr) ->
  current_price_api session args
  = (Returns {| body := [("error",
                          JString (failure_message ticker_input t e))];
                status := 404 |}, tr).
Proof.
  intros Hargs Hne Hlookup.
  rewrite (current_price_api_lookup _ _ _ Hargs Hne), Hlookup.
  destruct (get_bloomberg_price_shape _ _ _ _ _ _ Hlookup) as [Ht He].
  assert (Hor : or_else e ("Could not retrieve price for ticker " ++ ticker_input)
                = match e with
                  | Some x => x
                  | None => "Could not retrieve price for ticker " ++ ticker_input
                  end).
  { destruct e as [x |]; [| reflexivity]. simpl.
    rewrite nonempty_eqb; [reflexivity | congruence]. }
  rewrite Hor. unfold failure_message.
  destruct Ht as [-> | ->]; [reflexivity |].
  unfold truthy, differs, format.
  rewrite (nonempty_eqb _ (normalize_ticker_nonempty ticker_input)).
  simpl. now destruct (normalize_ticker ticker_input =? ticker_input).
Qed.

(** An empty final response: no error is recorded and the fallback is used. *)
Lemma failed_lookup_is_404_witness :
  current_price_api (Sample.working_session [Returns (Sample.response [])])
    [("ticker", "msft")]
  = (Returns
       {| body :=
            [("error",
              JString "Could not retrieve price for ticker msft (used Bloomberg ticker: MSFT US EQUITY)")];
          status := 404 |},
     calls_of_one_poll "MSFT US EQUITY").
Proof.
  apply (failed_lookup_is_404
           (Sample.working_session [Returns (Sample.response [])])
           [("ticker", "msft")] "msft" (Some "MSFT US EQUITY") None).
  - reflexivity.
  - discriminate.
  - reflexivity.
Defined.

(** A lookup whose first event is a timeout. *)
Lemma get_bloomberg_price_timeout session ticker_input :
  request_is_sent session = true ->
  first_event_is_timeout session = true ->
  get_bloomberg_price session ticker_input
  = (Returns (None, Some (normalize_ticker ticker_input),
              Some ("Bloomberg API request timed out for "
                      ++ normalize_ticker ticker_input ++ ".")),
     calls_of_one_poll (normalize_ticker ticker_input)).
Proof.
  rewrite get_bloomberg_price_by_flow.
  unfold request_is_sent, first_event_is_timeout, request_flow, send_and_poll.
  destruct session as [st op gs cr a1 a2 sr cid evs]. cbn.
  destruct st as [[|] |]; try discriminate.
  destruct op as [[|] |]; try discriminate.
  destruct gs as [[] |]; try discriminate.
  destruct cr as [[] |]; try discriminate.
  destruct a1 as [[] |]; try discriminate.
  destruct a2 as [[] |]; try discriminate.
  destruct sr as [[] |]; try discriminate.
  intros _.
  destruct evs as [| [[ty msgs ty'] |] rest]; cbn; try discriminate.
  - reflexivity.
  - destruct ty as [[] |]; try discriminate. reflexivity.
Qed.

(** C5.  When the request is sent and the first event the provider gives
    is a timeout event, the lookup polls once and the response is 404 with
    an error message in which "timed out" occurs.  (A request with an
    empty or missing ticker receives no event: it is answered 400 before a
    session exists.) *)
Theorem timeout_is_404 session args ticker_input :
  args_get "ticker" args = Some ticker_input ->
  ticker_input <> "" ->
  request_is_sent session = true ->
  first_event_is_timeout session = true ->
  exists msg,
    current_price_api session args
    = (Returns {| body := [("error", JString msg)]; status := 404 |},
       calls_of_one_poll (normalize_ticker ticker_input))
    /\ occurs_in "timed out" msg
    /\ polls (snd (current_price_api session args)) = 1.
Proof.
  intros Hargs Hne Hsent Htimeout.
  rewrite (current_price_api_lookup _ _ _ Hargs Hne),
    (get_bloomberg_price_timeout _ _ Hsent Htimeout).
  eexists. split; [reflexivity |]. split; [| reflexivity].
  exists "Bloomberg API request ".
  destruct (truthy _ && differs _ _); eexists; cbn; reflexivity.
Qed.

Lemma timeout_is_404_witness :
  exists msg,
    current_price_api
      (Sample.working_session
         [Returns blpapi.timeout_event;
          Returns (Sample.response [Sample.priced "MSFT US EQUITY" 312.5])])
      [("ticker", "MSFT")]
    = (Returns {| body := [("error", JString msg)]; status := 404 |},
       calls_of_one_poll (normalize_ticker "MSFT"))
    /\ occurs_in "timed out" msg
    /\ polls (snd (current_price_api
                     (Sample.working_session
                        [Returns blpapi.timeout_event;
                         Returns (Sample.response
                                    [Sample.priced "MSFT US EQUITY" 312.5])])
                     [("ticker", "MSFT")])) = 1.
Proof.
  apply (timeout_is_404
           (Sample.working_session
              [Returns blpapi.timeout_event;
               Returns (Sample.response [Sample.priced "MSFT US EQUITY" 312.5])])
           [("ticker", "MSFT")] "MSFT").
  - reflexivity.
  - discriminate.
  - reflexivity.
  - reflexivity.
Defined.

(** C9.  A result can carry both a price and an error: a security error on
    an earlier record stays recorded when a later record gives the price.
    Whenever the price is not [None] the response is 200 with the ticker
    and that price, and the error is not part of it. *)
Theorem price_wins_over_error :
  get_bloomberg_price
    (Sample.working_session
       [Returns (Sample.response
                   [Sample.unknown_security "MSFT UX EQUITY";
                    Sample.priced "MSFT US EQUITY" 312.5])])
    "MSFT"
  = (Returns (Some 312.5%float, Some "MSFT US EQUITY",
              Some "Security Error for MSFT UX EQUITY: Unknown/Invalid security"),
     calls_of_one_poll "MSFT US EQUITY")
  /\ forall session args ticker_input p t e tr,
       args_get "ticker" args = Some ticker_input ->
       ticker_input <> "" ->
       get_bloomberg_price session ticker_input = (Returns (Some p, t, e), tr) ->
       current_price_api session args
       = (Returns {| body := [("ticker", JString (or_else t ticker_input));
                              ("price", JNumber p)];
                     status := 200 |}, tr).
Proof.
  split; [reflexivity |].
  intros session args ticker_input p t e tr Hargs Hne Hlookup.
  now rewrite (current_price_api_lookup _ _ _ Hargs Hne), Hlookup.
Qed.

Lemma price_wins_over_error_witness :
  current_price_api
    (Sample.working_session
       [Returns (Sample.response
                   [Sample.unknown_security "MSFT UX EQUITY";
                    Sample.priced "MSFT US EQUITY" 312.5])])
    [("ticker", "MSFT")]
  = (Returns {| body := [("ticker", JString "MSFT US EQUITY");
                         ("price", JNumber 312.5)];
                status := 200 |},
     calls_of_one_poll "MSFT US EQUITY").
Proof.
  apply (proj2 price_wins_over_error
           (Sample.working_session
              [Returns (Sample.response
                          [Sample.unknown_security "MSFT UX EQUITY";
                           Sample.priced "MSFT US EQUITY" 312.5])])
           [("ticker", "MSFT")] "MSFT" 312.5%float (Some "MSFT US EQUITY")
           (Some "Security Error for MSFT UX EQUITY: Unknown/Invalid security")).
  - reflexivity.
  - discriminate.
  - reflexivity.
Defined.

(** The successful lookup of the specification. *)
Example msft_lookup :
  fst (current_price_api
         (Sample.working_session
            [Returns (Sample.response [Sample.priced "MSFT US EQUITY" 312.5])])
         [("ticker", "MSFT")])
  = Returns {| body := [("ticker", JString "MSFT US EQUITY");
                        ("price", JNumber 312.5)];
               status := 200 |}.
Proof. reflexivity. Qed.

(** * Further properties *)

(** ** More on the normaliser *)

Lemma length_append (a b : string) :
  String.length (a ++ b) = (String.length a + String.length b)%nat.
Proof. induction a as [| c a IH]; simpl; [reflexivity | now rewrite IH]. Qed.

Lemma length_upper (s : string) : String.length (upper s) = String.length s.
Proof. induction s as [| c s IH]; simpl; [reflexivity | now rewrite IH]. Qed.

Lemma append_assoc (a b c : string) : (a ++ b) ++ c = a ++ b ++ c.
Proof. induction a as [| x a IH]; simpl; [reflexivity | now rewrite IH]. Qed.

Lemma contains_append (c : ascii) (a b : string) :
  contains c (a ++ b) = contains c a || contains c b.
Proof.
  unfold contains. induction a as [| x a IH]; simpl; [reflexivity |].
  now rewrite IH, orb_assoc.
Qed.

Lemma contains_before (c : ascii) (s : string) : contains c (before c s) = false.
Proof.
  unfold contains. induction s as [| a s IH]; simpl; [reflexivity |].
  destruct (Ascii.eqb a c) eqn:E; simpl; [reflexivity |].
  now rewrite (Ascii.eqb_sym c a), E, IH.
Qed.






(** The three branches of the normaliser, by the parts of the input. *)
Lemma normalize_ticker_cases (ticker_input : string) :
  normalize_ticker ticker_input
  = if isnumeric ticker_input then ticker_input ++ " JT EQUITY"
    else if contains "." ticker_input then
      if upper (before "." (after "." ticker_input)) =? "T"
      then before "." ticker_input ++ " JT EQUITY"
      else before "." ticker_input ++ " EQUITY"
    else upper ticker_input ++ " US EQUITY".
Proof.
  unfold normalize_ticker.
  destruct (isnumeric ticker_input); [reflexivity |].
  destruct (contains "." ticker_input) eqn:Hdot; [| reflexivity].
  destruct (split_second "." ticker_input Hdot) as [Hlen Hsnd].
  now rewrite Hlen, Hsnd, split_head.
Qed.

(** The normalised ticker is never the raw input. *)
Lemma normalize_ticker_differs (ticker_input : string) :
  normalize_ticker ticker_input <> ticker_input.
Proof.
  rewrite normalize_ticker_cases.
  assert (Hlen : forall a b : string, String.length a = String.length ticker_input ->
                   a ++ String " " b <> ticker_input).
  { intros a b Ha H. apply (f_equal String.length) in H.
    rewrite length_append, Ha in H. simpl in H. lia. }
  assert (Hdot : forall b, contains "." b = false ->
                   contains "." ticker_input = true ->
                   before "." ticker_input ++ b <> ticker_input).
  { intros b Hb Ht H. apply (f_equal (contains ".")) in H.
    rewrite contains_append, contains_before, Hb, Ht in H. discriminate. }
  destruct (isnumeric ticker_input); [now apply Hlen |].
  destruct (contains "." ticker_input) eqn:E.
  - destruct (_ =? "T"); now apply Hdot.
  - apply Hlen, length_upper.
Qed.

(** Whatever the input, the security asked for is an equity: the
    normalised ticker ends with " EQUITY". *)
Theorem normalize_ticker_is_an_equity (ticker_input : string) :
  ends_with " EQUITY" (normalize_ticker ticker_input).
Proof.
  rewrite normalize_ticker_cases. unfold ends_with.
  destruct (isnumeric ticker_input).
  - exists (ticker_input ++ " JT"). now rewrite append_assoc.
  - destruct (contains "." ticker_input).
    + destruct (_ =? "T").
      * exists (before "." ticker_input ++ " JT"). now rewrite append_assoc.
      * now exists (before "." ticker_input).
    + exists (upper ticker_input ++ " US"). now rewrite append_assoc.
Qed.



(** ** More on the lookup *)

Ltac not_sent :=
  right; intros Hin; simpl in Hin;
  repeat (destruct Hin as [Hin | Hin]; [discriminate Hin |]); exact Hin.

(** What the [try] block leaves behind: the session was created and
    started; a price is held only with the normalised ticker in use; and
    if the request was sent, it was built by exactly the calls of
    [calls_to_send]. *)
Lemma request_flow_frame session ticker_input :
  let s := snd (request_flow session ticker_input entry_frame) in
  opened_by_start s
  /\ (uses_ticker (normalize_ticker ticker_input) s \/ price s = None)
  /\ (sent_for (normalize_ticker ticker_input) s
      \/ ~ In Call_sendRequest (calls s)).
Proof.
  pose (I := fun s => opened_by_start s
                      /\ uses_ticker (normalize_ticker ticker_input) s
                      /\ sent_for (normalize_ticker ticker_input) s).
  assert (Hloop : forall script,
             keeps I settled (while_not_request_processed session script)).
  { intros script. apply keeps_while_not_request_processed;
      unfold I, opened_by_start, uses_ticker, sent_for; simpl; try tauto.
    intros c s _ [[l1 H1] [Ht [l2 H2]]]. repeat split; try assumption.
    - exists (l1 ++ [c])%list. now rewrite H1.
    - exists (l2 ++ [c])%list. rewrite H2. reflexivity. }
  unfold request_flow, send_and_poll.
  destruct session as [st op gs cr a1 a2 sr cid evs]. cbn.
  destruct st as [[|] | e]; cbn;
    [| split; [eexists; reflexivity | split; [right; reflexivity | not_sent]] ..].
  destruct op as [[|] | e]; cbn;
    [| split; [eexists; reflexivity | split; [right; reflexivity | not_sent]] ..].
  destruct gs as [[] | e]; cbn;
    [| split; [eexists; reflexivity | split; [right; reflexivity | not_sent]]].
  destruct cr as [[] | e]; cbn;
    [| split; [eexists; reflexivity | split; [right; reflexivity | not_sent]]].
  destruct a1 as [[] | e]; cbn;
    [| split; [eexists; reflexivity
              | split; [left; reflexivity | not_sent]]].
  destruct a2 as [[] | e]; cbn;
    [| split; [eexists; reflexivity
              | split; [left; reflexivity | not_sent]]].
  destruct sr as [[] | e]; cbn;
    [| split; [eexists; reflexivity
              | split; left; [reflexivity | exists []; reflexivity]]].
  match goal with
  | |- context [while_not_request_processed ?x ?y ?s0] =>
      destruct (Hloop y s0) as [_ [Ho [Ht Hs]]]
  end.
  { unfold I. repeat split; [eexists; reflexivity | exists []; reflexivity]. }
  tauto.
Qed.

(** Every lookup creates the session, starts it before anything else and
    stops it last: no call is made on the session after the final stop. *)
Theorem lookup_brackets_its_calls session ticker_input :
  exists between,
    snd (get_bloomberg_price session ticker_input)
    = Call_Session :: Call_start :: (between ++ [Call_stop])%list.
Proof.
  rewrite get_bloomberg_price_by_flow.
  destruct (request_flow_frame session ticker_input) as [[later H] _].
  destruct (request_flow session ticker_input entry_frame) as [c s].
  simpl in H. exists later.
  destruct c; simpl; now rewrite H.
Qed.

(** Whenever a lookup sends a request, the calls up to the sending are
    exactly those of [calls_to_send]: the request names the normalised
    ticker as its only security and PX_LAST as its only field. *)
Theorem request_asks_for_last_price session ticker_input :
  In Call_sendRequest (snd (get_bloomberg_price session ticker_input)) ->
  exists later,
    snd (get_bloomberg_price session ticker_input)
    = (calls_to_send (normalize_ticker ticker_input) ++ later)%list.
Proof.
  rewrite get_bloomberg_price_by_flow.
  destruct (request_flow_frame session ticker_input) as [_ [_ H]].
  destruct (request_flow session ticker_input entry_frame) as [c s].
  simpl in H.
  assert (Htr : snd (outcome_of_flow ticker_input (c, s))
                = (calls s ++ [Call_stop])%list)
    by (destruct c; reflexivity).
  rewrite Htr. intros Hin.
  apply in_app_or in Hin. destruct Hin as [Hin | [Hin | []]];
    [| discriminate Hin].
  destruct H as [[later H] | H]; [| contradiction].
  exists (later ++ [Call_stop])%list. now rewrite H, app_assoc.
Qed.

Lemma request_asks_for_last_price_witness :
  exists later,
    snd (get_bloomberg_price
           (Sample.working_session
              [Returns (Sample.response [Sample.priced "MSFT US EQUITY" 312.5])])
           "msft")
    = (calls_to_send (normalize_ticker "msft") ++ later)%list.
Proof.
  apply (request_asks_for_last_price
           (Sample.working_session
              [Returns (Sample.response [Sample.priced "MSFT US EQUITY" 312.5])])
           "msft").
  simpl. tauto.
Defined.

(** A result with a price carries the normalised ticker. *)
Lemma priced_result_has_ticker session ticker_input p t e tr :
  get_bloomberg_price session ticker_input = (Returns (Some p, t, e), tr) ->
  t = Some (normalize_ticker ticker_input).
Proof.
  rewrite get_bloomberg_price_by_flow.
  destruct (request_flow_frame session ticker_input) as [_ [H _]].
  pose proof (request_flow_spec session ticker_input) as Hspec.
  destruct (request_flow session ticker_input entry_frame) as [c s].
  simpl in H. destruct Hspec as [_ [_ Hc]].
  destruct c as [[] | | | [[p' t'] e'] | x]; simpl; intros Heq;
    try contradiction; inversion Heq; subst.
  - destruct H as [H | H]; [exact H | congruence].
  - destruct Hc as [Hp _]. discriminate Hp.
Qed.

(** The ticker of every 200 response is the normalised ticker, never the
    raw input: the fallback of line 170 is not used. *)
Theorem price_response_names_normalised_ticker
    session args ticker_input p t e tr :
  args_get "ticker" args = Some ticker_input ->
  ticker_input <> "" ->
  get_bloomberg_price session ticker_input = (Returns (Some p, t, e), tr) ->
  current_price_api session args
  = (Returns {| body := [("ticker", JString (normalize_ticker ticker_input));
                         ("price", JNumber p)];
                status := 200 |}, tr).
Proof.
  intros Hargs Hne Hlookup.
  rewrite (current_price_api_lookup _ _ _ Hargs Hne), Hlookup.
  rewrite (priced_result_has_ticker _ _ _ _ _ _ Hlookup). simpl.
  now rewrite (nonempty_eqb _ (normalize_ticker_nonempty ticker_input)).
Qed.

Lemma price_response_names_normalised_ticker_witness :
  current_price_api
    (Sample.working_session
       [Returns (Sample.response [Sample.priced "7203 JT EQUITY" 2500])])
    [("ticker", "7203.t")]
  = (Returns {| body := [("ticker", JString (normalize_ticker "7203.t"));
                         ("price", JNumber 2500)];
                status := 200 |},
     calls_of_one_poll "7203 JT EQUITY").
Proof.
  apply (price_response_names_normalised_ticker
           (Sample.working_session
              [Returns (Sample.response [Sample.priced "7203 JT EQUITY" 2500])])
           [("ticker", "7203.t")] "7203.t" 2500%float
           (Some "7203 JT EQUITY") None).
  - reflexivity.
  - discriminate.
  - reflexivity.
Defined.

(** Every request is answered, and in one of three ways: 400 with the
    fixed error and no provider call, 200 with a ticker and a price, or
    404 with an error message.  No request ends in an exception. *)
Theorem every_request_is_answered session args :
  exists r tr,
    current_price_api session args = (Returns r, tr)
    /\ ((is_bad_request r /\ tr = []) \/ is_price r \/ is_failure r).
Proof.
  unfold current_price_api.
  destruct (args_get "ticker" args) as [ticker_input |].
  2: { do 2 eexists. split; [reflexivity |]. left. now repeat split. }
  destruct (ticker_input =? "").
  { do 2 eexists. split; [reflexivity |]. left. now repeat split. }
  destruct (get_bloomberg_price_returns session ticker_input) as [[[p t] e] Hr].
  destruct (get_bloomberg_price session ticker_input) as [o tr].
  simpl in Hr. subst o.
  destruct p as [p |]; do 2 eexists; (split; [reflexivity |]); right.
  - left. split; [reflexivity |]. now do 2 eexists.
  - right. split; [reflexivity |]. now eexists.
Qed.

(** A failed lookup that got as far as deriving a ticker always names it:
    the normalised ticker is never equal to the raw input, so the 404
    message ends with the ticker in parentheses. *)
Theorem failed_lookup_names_the_ticker :
  (forall ticker_input, normalize_ticker ticker_input <> ticker_input)
  /\ forall session args ticker_input t e tr,
       args_get "ticker" args = Some ticker_input ->
       ticker_input <> "" ->
       get_bloomberg_price session ticker_input
       = (Returns (None, Some t, e), tr) ->
       current_price_api session args
       = (Returns
            {| body :=
                 [("error",
                   JString
                     (match e with
                      | Some text => text
                      | None => "Could not retrieve price for ticker "
                                  ++ ticker_input
                      end ++ " (used Bloomberg ticker: "
                        ++ normalize_ticker ticker_input ++ ")"))];
               status := 404 |}, tr).
Proof.
  split; [exact normalize_ticker_differs |].
  intros session args ticker_input t e tr Hargs Hne Hlookup.
  rewrite (current_price_api_lookup _ _ _ Hargs Hne), Hlookup.
  destruct (get_bloomberg_price_shape _ _ _ _ _ _ Hlookup) as [Ht He].
  destruct Ht as [Ht | Ht]; [discriminate Ht |]. inversion Ht; subst t.
  unfold truthy, differs, format.
  rewrite (nonempty_eqb _ (normalize_ticker_nonempty ticker_input)).
  assert (Hd : (normalize_ticker ticker_input =? ticker_input) = false)
    by (apply String.eqb_neq, normalize_ticker_differs).
  rewrite Hd. simpl.
  destruct e as [text |]; [| reflexivity]. simpl.
  rewrite nonempty_eqb; [reflexivity | congruence].
Qed.

Lemma failed_lookup_names_the_ticker_witness :
  current_price_api
    (Sample.working_session
       [Returns (Sample.response [Sample.unknown_security "ZZZZ US EQUITY"])])
    [("ticker", "zzzz")]
  = (Returns
       {| body :=
            [("error",
              JString
                ("Security Error for ZZZZ US EQUITY: Unknown/Invalid security"
                   ++ " (used Bloomberg ticker: "
                   ++ normalize_ticker "zzzz" ++ ")"))];
          status := 404 |},
     calls_of_one_poll "ZZZZ US EQUITY").
Proof.
  apply (proj2 failed_lookup_names_the_ticker
           (Sample.working_session
              [Returns (Sample.response
                          [Sample.unknown_security "ZZZZ US EQUITY"])])
           [("ticker", "zzzz")] "zzzz" "ZZZZ US EQUITY"
           (Some "Security Error for ZZZZ US EQUITY: Unknown/Invalid security")).
  - reflexivity.
  - discriminate.
  - reflexivity.
Defined.

(** ** Failures before the request *)

(** When [session.start()] returns false or raises, nothing more is asked
    of the session but the stop: the response is 404 with the start-failure
    text, or with the text of the exception, and no ticker is named. *)
Theorem start_failure_is_404 session args ticker_input :
  args_get "ticker" args = Some ticker_input ->
  ticker_input <> "" ->
  returns_true (blpapi.start session) = false ->
  current_price_api session args
  = (Returns
       {| body :=
            [("error",
              JString
                match blpapi.start session with
                | Raises e =>
                    "Exception while getting price for " ++ ticker_input
                      ++ ": " ++ e
                | Returns _ => "Failed to start Bloomberg session."
                end)];
          status := 404 |},
     [Call_Session; Call_start; Call_stop]).
Proof.
  intros Hargs Hne Hstart.
  rewrite (current_price_api_lookup _ _ _ Hargs Hne),
    get_bloomberg_price_by_flow.
  unfold request_flow.
  destruct (blpapi.start session) as [[|] | e]; [discriminate | |];
    reflexivity.
Qed.

Lemma start_failure_is_404_witness :
  current_price_api Scenario.unreachable_session [("ticker", "MSFT")]
  = (Returns
       {| body :=
            [("error",
              JString
                match blpapi.start Scenario.unreachable_session with
                | Raises e =>
                    "Exception while getting price for " ++ "MSFT"
                      ++ ": " ++ e
                | Returns _ => "Failed to start Bloomberg session."
                end)];
          status := 404 |},
     [Call_Session; Call_start; Call_stop]).
Proof.
  apply (start_failure_is_404 Scenario.unreachable_session
           [("ticker", "MSFT")] "MSFT").
  - reflexivity.
  - discriminate.
  - reflexivity.
Defined.

(** When the session starts and [openService] returns false or raises, no
    request is built: the response is 404 with the open-failure text, or
    with the text of the exception, and no ticker is named. *)
Theorem open_failure_is_404 session args ticker_input :
  args_get "ticker" args = Some ticker_input ->
  ticker_input <> "" ->
  returns_true (blpapi.start session) = true ->
  returns_true (blpapi.openService session) = false ->
  exists stop_calls,
    current_price_api session args
    = (Returns
         {| body :=
              [("error",
                JString
                  match blpapi.openService session with
                  | Raises e =>
                      "Exception while getting price for " ++ ticker_input
                        ++ ": " ++ e
                  | Returns _ => "Failed to open //blp/refdata service."
                  end)];
            status := 404 |},
       [Call_Session; Call_start; Call_openService "//blp/refdata"]
         ++ stop_calls)%list
    /\ forallb is_stop stop_calls = true.
Proof.
  intros Hargs Hne Hstart Hopen.
  rewrite (current_price_api_lookup _ _ _ Hargs Hne),
    get_bloomberg_price_by_flow.
  unfold request_flow.
  destruct (blpapi.start session) as [[|] | e]; try discriminate.
  destruct (blpapi.openService session) as [[|] | e]; [discriminate | |].
  - exists [Call_stop; Call_stop]. split; reflexivity.
  - exists [Call_stop]. split; reflexivity.
Qed.

Lemma open_failure_is_404_witness :
  exists stop_calls,
    current_price_api Sample.open_failure_session [("ticker", "MSFT")]
    = (Returns
         {| body :=
              [("error",
                JString
                  match blpapi.openService Sample.open_failure_session with
                  | Raises e =>
                      "Exception while getting price for " ++ "MSFT"
                        ++ ": " ++ e
                  | Returns _ => "Failed to open //blp/refdata service."
                  end)];
            status := 404 |},
       [Call_Session; Call_start; Call_openService "//blp/refdata"]
         ++ stop_calls)%list
    /\ forallb is_stop stop_calls = true.
Proof.
  apply (open_failure_is_404 Sample.open_failure_session
           [("ticker", "MSFT")] "MSFT").
  - reflexivity.
  - discriminate.
  - reflexivity.
  - reflexivity.
Defined.

(** ** Reading events *)

Arguments EventType_eqb : simpl never.

Lemma EventType_eqb_neq (a b : blpapi.EventType) :
  a <> b -> EventType_eqb a b = false.
Proof.
  intros H. unfold EventType_eqb.
  destruct (blpapi.EventType_eq_dec a b); [contradiction | reflexivity].
Qed.

(** A message that answers another request is passed over while nothing
    has been recorded. *)
Lemma foreign_message_is_skipped session msg s :
  foreign session msg = true ->
  price s = None -> error_message s = None ->
  message_body session msg s = (Normal tt, s).
Proof.
  unfold foreign, message_body. intros Hf Hp He.
  destruct (blpapi.correlationIds msg) as [| c ids]; [discriminate |].
  apply negb_true_iff in Hf.
  unfold bind, eval, get, ret. rewrite Hf, Hp, He. reflexivity.
Qed.

(** Messages that answer other requests are ignored: an event made only of
    such messages records no price and no error, and ends the polling only
    when it is the final response event. *)
Theorem foreign_messages_are_ignored session ev ty ty' s :
  blpapi.eventType ev = Returns ty ->
  ty <> blpapi.TIMEOUT ->
  forallb (foreign session) (blpapi.messages ev) = true ->
  blpapi.eventType_again ev = Returns ty' ->
  price s = None ->
  error_message s = None ->
  event_body session (Returns ev) s
  = (Normal tt,
     if EventType_eqb ty' blpapi.RESPONSE
     then set_request_processed true (log (Call_nextEvent 5000) s)
     else log (Call_nextEvent 5000) s).
Proof.
  intros Hty Hnt Hall Hty' Hp He.
  assert (Hmsgs : forall msgs s0,
             forallb (foreign session) msgs = true ->
             price s0 = None -> error_message s0 = None ->
             for_each msgs (message_body session) s0 = (Normal tt, s0)).
  { induction msgs as [| msg msgs IH]; intros s0 Hf Hp0 He0; [reflexivity |].
    simpl in Hf. apply andb_true_iff in Hf. destruct Hf as [Hm Hf].
    cbn [for_each].
    rewrite (foreign_message_is_skipped _ _ _ Hm Hp0 He0). now apply IH. }
  unfold event_body, session_call, bind, assign, eval.
  rewrite Hty, (EventType_eqb_neq _ _ Hnt).
  rewrite (Hmsgs _ (log (Call_nextEvent 5000) s) Hall Hp He), Hty'.
  now destruct (EventType_eqb ty' blpapi.RESPONSE).
Qed.

Lemma foreign_messages_are_ignored_witness :
  event_body (Sample.working_session [])
    (Returns Scenario.for_another_request)
    (sent_frame "MSFT US EQUITY")
  = (Normal tt,
     if EventType_eqb blpapi.PARTIAL_RESPONSE blpapi.RESPONSE
     then set_request_processed true
            (log (Call_nextEvent 5000) (sent_frame "MSFT US EQUITY"))
     else log (Call_nextEvent 5000) (sent_frame "MSFT US EQUITY")).
Proof.
  apply (foreign_messages_are_ignored (Sample.working_session [])
           Scenario.for_another_request
           blpapi.PARTIAL_RESPONSE blpapi.PARTIAL_RESPONSE);
    first [reflexivity | discriminate].
Defined.

(** The scan of the records ends at the first record that has neither
    field exceptions nor a security error: the records after it are never
    read, whatever that record holds. *)
Theorem first_plain_record_ends_the_scan security_data records s :
  no_field_exceptions security_data = true ->
  blpapi.securityError security_data = None ->
  for_each (security_data :: records) security_data_body s
  = for_each [security_data] security_data_body s.
Proof.
  intros Hfe Hse.
  assert (H : (exists s', security_data_body security_data s = (Break, s'))
              \/ exists e s', security_data_body security_data s = (Raise e, s')).
  { unfold security_data_body, security_error_or_field_data, no_field_exceptions in *.
    rewrite Hse.
    unfold bind, eval, get, assign, break_.
    destruct (blpapi.security security_data) as [name | e]; [| right; eauto].
    destruct (blpapi.fieldExceptions security_data) as [[| fe arr] |];
      try discriminate; cbn;
      (destruct (blpapi.fieldData security_data) as [fd | e]; [| right; eauto];
       destruct (blpapi.PX_LAST fd) as [[| [x | e]] |]; cbn; eauto). }
  cbn [for_each].
  destruct H as [[s' H] | [e [s' H]]]; now rewrite H.
Qed.

Lemma first_plain_record_ends_the_scan_witness :
  for_each [Sample.priced "MSFT US EQUITY" 312.5;
            Sample.priced "MSFT US EQUITY" 1]
    security_data_body (first_poll_frame "MSFT US EQUITY")
  = for_each [Sample.priced "MSFT US EQUITY" 312.5]
      security_data_body (first_poll_frame "MSFT US EQUITY").
Proof.
  apply (first_plain_record_ends_the_scan
           (Sample.priced "MSFT US EQUITY" 312.5)
           [Sample.priced "MSFT US EQUITY" 1]);
    reflexivity.
Defined.

Lemma set_request_processed_again (s : frame) :
  request_processed s = true -> set_request_processed true s = s.
Proof. destruct s; simpl; intros ->; reflexivity. Qed.

(** The lookup when the first event is not a timeout and reading its
    messages ends the polling. *)
Lemma lookup_by_first_event session ticker_input ev rest ty ty' s :
  request_is_sent session = true ->
  blpapi.nextEvent session = Returns ev :: rest ->
  blpapi.eventType ev = Returns ty ->
  ty <> blpapi.TIMEOUT ->
  blpapi.eventType_again ev = Returns ty' ->
  for_each (blpapi.messages ev) (message_body session)
    (first_poll_frame (normalize_ticker ticker_input)) = (Normal tt, s) ->
  request_processed s = true ->
  get_bloomberg_price session ticker_input
  = (Returns (price s, bloomberg_ticker_used s, error_message s),
     (calls s ++ [Call_stop])%list).
Proof.
  intros Hsent Hevs Hty Hnt Hty' Hmsgs Hdone.
  assert (Hbody : event_body session (Returns ev)
                    (sent_frame (normalize_ticker ticker_input))
                  = (Normal tt, s)).
  { unfold event_body, session_call, bind, assign, eval.
    rewrite Hty, (EventType_eqb_neq _ _ Hnt).
    change (log (Call_nextEvent 5000)
              (sent_frame (normalize_ticker ticker_input)))
      with (first_poll_frame (normalize_ticker ticker_input)).
    rewrite Hmsgs, Hty'.
    destruct (EventType_eqb ty' blpapi.RESPONSE); [| reflexivity].
    now rewrite (set_request_processed_again _ Hdone). }
  assert (Hloop : while_not_request_processed session (Returns ev :: rest)
                    (sent_frame (normalize_ticker ticker_input))
                  = (Normal tt, s)).
  { cbn [while_not_request_processed sent_frame request_processed].
    rewrite Hbody. destruct rest; cbn [while_not_request_processed];
      now rewrite Hdone. }
  rewrite get_bloomberg_price_by_flow.
  unfold request_is_sent in Hsent. unfold request_flow, send_and_poll.
  rewrite Hevs.
  destruct (blpapi.start session) as [[|] |]; try discriminate.
  destruct (blpapi.openService session) as [[|] |]; try discriminate.
  destruct (blpapi.getService session) as [[] |]; try discriminate.
  destruct (blpapi.createRequest session) as [[] |]; try discriminate.
  destruct (blpapi.append_securities session) as [[] |]; try discriminate.
  destruct (blpapi.append_fields session) as [[] |]; try discriminate.
  destruct (blpapi.sendRequest session) as [[] |]; try discriminate.
  unfold session_call, bind, assign, eval, negb.
  change (while_not_request_processed session (Returns ev :: rest) _)
    with (while_not_request_processed session (Returns ev :: rest)
            (sent_frame (normalize_ticker ticker_input))).
  rewrite Hloop. reflexivity.
Qed.

(** A response error in the first message of the request ends the lookup:
    the error recorded is the provider's text, later messages and events
    are not read, and the session is polled once. *)
Theorem response_error_ends_the_lookup
    session ticker_input ev rest ty ty' msg more ids response_error text :
  request_is_sent session = true ->
  blpapi.nextEvent session = Returns ev :: rest ->
  blpapi.eventType ev = Returns ty ->
  ty <> blpapi.TIMEOUT ->
  blpapi.eventType_again ev = Returns ty' ->
  blpapi.messages ev = msg :: more ->
  blpapi.correlationIds msg = blpapi.correlationId session :: ids ->
  blpapi.responseError msg = Some response_error ->
  blpapi.message response_error = Returns text ->
  get_bloomberg_price session ticker_input
  = (Returns (None, Some (normalize_ticker ticker_input),
              Some ("Response Error for " ++ normalize_ticker ticker_input
                      ++ ": " ++ text)),
     calls_of_one_poll (normalize_ticker ticker_input)).
Proof.
  intros Hsent Hevs Hty Hnt Hty' Hmsgs Hcid Herr Htext.
  rewrite (lookup_by_first_event session ticker_input ev rest ty ty'
             (set_request_processed true
                (set_error_message
                   (Some ("Response Error for "
                            ++ normalize_ticker ticker_input ++ ": " ++ text))
                   (first_poll_frame (normalize_ticker ticker_input))))
             Hsent Hevs Hty Hnt Hty');
    [reflexivity | | reflexivity].
  rewrite Hmsgs. cbn [for_each].
  unfold message_body, bind, eval, get, assign, break_.
  rewrite Hcid, Z.eqb_refl, Herr, Htext. reflexivity.
Qed.

Lemma response_error_ends_the_lookup_witness :
  get_bloomberg_price
    (Sample.working_session [Returns Scenario.rejected]) "MSFT"
  = (Returns (None, Some (normalize_ticker "MSFT"),
              Some ("Response Error for " ++ normalize_ticker "MSFT"
                      ++ ": " ++ "Invalid request")),
     calls_of_one_poll (normalize_ticker "MSFT")).
Proof.
  apply (response_error_ends_the_lookup
           (Sample.working_session [Returns Scenario.rejected])
           "MSFT" Scenario.rejected [] blpapi.RESPONSE blpapi.RESPONSE
           Scenario.rejection [] []
           {| blpapi.message := Returns "Invalid request" |}
           "Invalid request");
    first [reflexivity | discriminate].
Defined.

(** The price of the first record is the answer.  When the first message
    of the request, in an event of any type but a timeout, starts with a
    record that has no field exception and no security error and whose
    PX_LAST holds a number, the lookup returns that number with no error,
    after one poll: other records, messages and events are not read. *)
Theorem first_price_is_the_answer
    session ticker_input ev rest ty ty' msg more ids
    security_data records sec_name field_data x :
  request_is_sent session = true ->
  blpapi.nextEvent session = Returns ev :: rest ->
  blpapi.eventType ev = Returns ty ->
  ty <> blpapi.TIMEOUT ->
  blpapi.eventType_again ev = Returns ty' ->
  blpapi.messages ev = msg :: more ->
  blpapi.correlationIds msg = blpapi.correlationId session :: ids ->
  blpapi.responseError msg = None ->
  blpapi.securityData msg = Returns (security_data :: records) ->
  blpapi.security security_data = Returns sec_name ->
  no_field_exceptions security_data = true ->
  blpapi.securityError security_data = None ->
  blpapi.fieldData security_data = Returns field_data ->
  blpapi.PX_LAST field_data = Some (blpapi.Value (Returns x)) ->
  get_bloomberg_price session ticker_input
  = (Returns (Some x, Some (normalize_ticker ticker_input), None),
     calls_of_one_poll (normalize_ticker ticker_input)).
Proof.
  intros Hsent Hevs Hty Hnt Hty' Hmsgs Hcid Herr Hdata Hname Hfe Hse Hfd Hpx.
  rewrite (lookup_by_first_event session ticker_input ev rest ty ty'
             (set_request_processed true
                (set_price (Some x)
                   (first_poll_frame (normalize_ticker ticker_input))))
             Hsent Hevs Hty Hnt Hty');
    [reflexivity | | reflexivity].
  assert (Hrecord : forall s,
             security_data_body security_data s
             = (Break, set_price (Some x) s)).
  { intros s. unfold security_data_body, security_error_or_field_data.
    unfold no_field_exceptions in Hfe.
    unfold bind, eval, assign, break_.
    rewrite Hname, Hse, Hfd, Hpx.
    destruct (blpapi.fieldExceptions security_data) as [[| fe arr] |];
      [reflexivity | discriminate | reflexivity]. }
  rewrite Hmsgs. cbn [for_each].
  unfold message_body, bind, eval, get, assign, break_.
  rewrite Hcid, Z.eqb_refl, Herr, Hdata. cbn [for_each].
  rewrite Hrecord. reflexivity.
Qed.

Lemma first_price_is_the_answer_witness :
  get_bloomberg_price
    (Sample.working_session
       [Returns (Sample.response
                   [Sample.priced "MSFT US EQUITY" 312.5;
                    Sample.unknown_security "MSFT UX EQUITY"]);
        Raises "never polled"])
    "msft"
  = (Returns (Some 312.5%float, Some (normalize_ticker "msft"), None),
     calls_of_one_poll (normalize_ticker "msft")).
Proof.
  apply (first_price_is_the_answer
           (Sample.working_session
              [Returns (Sample.response
                          [Sample.priced "MSFT US EQUITY" 312.5;
                           Sample.unknown_security "MSFT UX EQUITY"]);
               Raises "never polled"])
           "msft"
           (Sample.response
              [Sample.priced "MSFT US EQUITY" 312.5;
               Sample.unknown_security "MSFT UX EQUITY"])
           [Raises "never polled"] blpapi.RESPONSE blpapi.RESPONSE
           (Sample.reply
              [Sample.priced "MSFT US EQUITY" 312.5;
               Sample.unknown_security "MSFT UX EQUITY"])
           [] [] (Sample.priced "MSFT US EQUITY" 312.5)
           [Sample.unknown_security "MSFT UX EQUITY"] "MSFT US EQUITY"
           {| blpapi.PX_LAST := Some (blpapi.Value (Returns 312.5%float)) |}
           312.5%float);
    first [reflexivity | discriminate].
Defined.

(** A record with a security error is passed over like one with field
    exceptions: its error is recorded and the scan goes on with the next
    record, whose outcome may replace it. *)
Theorem security_error_is_recorded_and_passed
    security_data sec_name security_error text records s :
  blpapi.security security_data = Returns sec_name ->
  no_field_exceptions security_data = true ->
  blpapi.securityError security_data = Some security_error ->
  blpapi.message security_error = Returns text ->
  for_each (security_data :: records) security_data_body s
  = for_each records security_data_body
      (set_error_message
         (Some ("Security Error for " ++ sec_name ++ ": " ++ text)) s).
Proof.
  intros Hname Hfe Hse Htext.
  assert (Hbody : security_data_body security_data s
                  = (Continue,
                     set_error_message
                       (Some ("Security Error for " ++ sec_name ++ ": " ++ text))
                       s)).
  { unfold security_data_body, security_error_or_field_data.
    unfold no_field_exceptions in Hfe.
    unfold bind, eval, assign, continue_.
    rewrite Hname, Hse, Htext.
    destruct (blpapi.fieldExceptions security_data) as [[| fe arr] |];
      [reflexivity | discriminate | reflexivity]. }
  cbn [for_each]. now rewrite Hbody.
Qed.

Lemma security_error_is_recorded_and_passed_witness :
  for_each [Sample.unknown_security "MSFT UX EQUITY";
            Sample.priced "MSFT US EQUITY" 312.5]
    security_data_body (first_poll_frame "MSFT US EQUITY")
  = for_each [Sample.priced "MSFT US EQUITY" 312.5] security_data_body
      (set_error_message
         (Some ("Security Error for " ++ "MSFT UX EQUITY" ++ ": "
                  ++ "Unknown/Invalid security"))
         (first_poll_frame "MSFT US EQUITY")).
Proof.
  apply (security_error_is_recorded_and_passed
           (Sample.unknown_security "MSFT UX EQUITY") "MSFT UX EQUITY"
           {| blpapi.message := Returns "Unknown/Invalid security" |}
           "Unknown/Invalid security");
    reflexivity.
Defined.

(** A first record whose PX_LAST is null or absent is an error, not a
    price: the lookup returns no price and the text that says which of the
    two it was, naming the normalised ticker, after one poll. *)
Theorem missing_price_is_an_error
    session ticker_input ev rest ty ty' msg more ids
    security_data records sec_name field_data text :
  request_is_sent session = true ->
  blpapi.nextEvent session = Returns ev :: rest ->
  blpapi.eventType ev = Returns ty ->
  ty <> blpapi.TIMEOUT ->
  blpapi.eventType_again ev = Returns ty' ->
  blpapi.messages ev = msg :: more ->
  blpapi.correlationIds msg = blpapi.correlationId session :: ids ->
  blpapi.responseError msg = None ->
  blpapi.securityData msg = Returns (security_data :: records) ->
  blpapi.security security_data = Returns sec_name ->
  no_field_exceptions security_data = true ->
  blpapi.securityError security_data = None ->
  blpapi.fieldData security_data = Returns field_data ->
  no_price_text (normalize_ticker ticker_input) (blpapi.PX_LAST field_data)
  = Some text ->
  get_bloomberg_price session ticker_input
  = (Returns (None, Some (normalize_ticker ticker_input), Some text),
     calls_of_one_poll (normalize_ticker ticker_input)).
Proof.
  intros Hsent Hevs Hty Hnt Hty' Hmsgs Hcid Herr Hdata Hname Hfe Hse Hfd Hpx.
  rewrite (lookup_by_first_event session ticker_input ev rest ty ty'
             (set_request_processed true
                (set_error_message (Some text)
                   (first_poll_frame (normalize_ticker ticker_input))))
             Hsent Hevs Hty Hnt Hty');
    [reflexivity | | reflexivity].
  rewrite Hmsgs. cbn [for_each].
  unfold message_body, security_data_body, security_error_or_field_data.
  unfold no_field_exceptions in Hfe. unfold no_price_text in Hpx.
  unfold bind, eval, get, assign, break_.
  rewrite Hcid, Z.eqb_refl, Herr, Hdata. cbn [for_each].
  rewrite Hname, Hse, Hfd.
  destruct (blpapi.PX_LAST field_data) as [[| v] |];
    try discriminate; inversion Hpx; subst text;
    (destruct (blpapi.fieldExceptions security_data) as [[| fe arr] |];
     [reflexivity | discriminate | reflexivity]).
Qed.

Lemma missing_price_is_an_error_witness :
  get_bloomberg_price
    (Sample.working_session
       [Returns (Sample.response
                   [{| blpapi.security := Returns "MSFT US EQUITY";
                       blpapi.fieldExceptions := None;
                       blpapi.securityError := None;
                       blpapi.fieldData :=
                         Returns {| blpapi.PX_LAST := Some blpapi.NullValue |} |}])])
    "msft"
  = (Returns (None, Some (normalize_ticker "msft"),
              Some "PX_LAST is null for MSFT US EQUITY."),
     calls_of_one_poll (normalize_ticker "msft")).
Proof.
  apply (missing_price_is_an_error
           (Sample.working_session
              [Returns (Sample.response
                          [{| blpapi.security := Returns "MSFT US EQUITY";
                              blpapi.fieldExceptions := None;
                              blpapi.securityError := None;
                              blpapi.fieldData :=
                                Returns {| blpapi.PX_LAST :=
                                             Some blpapi.NullValue |} |}])])
           "msft"
           (Sample.response
              [{| blpapi.security := Returns "MSFT US EQUITY";
                  blpapi.fieldExceptions := None;
                  blpapi.securityError := None;
                  blpapi.fieldData :=
                    Returns {| blpapi.PX_LAST := Some blpapi.NullValue |} |}])
           [] blpapi.RESPONSE blpapi.RESPONSE
           (Sample.reply
              [{| blpapi.security := Returns "MSFT US EQUITY";
                  blpapi.fieldExceptions := None;
                  blpapi.securityError := None;
                  blpapi.fieldData :=
                    Returns {| blpapi.PX_LAST := Some blpapi.NullValue |} |}])
           [] []
           {| blpapi.security := Returns "MSFT US EQUITY";
              blpapi.fieldExceptions := None;
              blpapi.securityError := None;
              blpapi.fieldData :=
                Returns {| blpapi.PX_LAST := Some blpapi.NullValue |} |}
           [] "MSFT US EQUITY"
           {| blpapi.PX_LAST := Some blpapi.NullValue |}
           "PX_LAST is null for MSFT US EQUITY.");
    first [reflexivity | discriminate].
Defined.

(** ** The two string models *)

(** On ASCII text the byte strings of [Py] and the code points of
    [Unicode] give the same normalised ticker. *)

Lemma ascii_char_isnumeric (c : ascii) :
  (N_of_ascii c <? 128)%N = true ->
  Unicode.isnumeric_char (N_of_ascii c) = isdigit_char c.
Proof.
  destruct c as [[] [] [] [] [] [] [] []]; intros H;
    first [discriminate H | vm_compute; reflexivity].
Qed.

Lemma ascii_char_upper (c : ascii) :
  (N_of_ascii c <? 128)%N = true ->
  Unicode.upper_char (N_of_ascii c) = [N_of_ascii (upper_char c)].
Proof.
  destruct c as [[] [] [] [] [] [] [] []]; intros H;
    first [discriminate H | vm_compute; reflexivity].
Qed.

Lemma code_eqb (a b : ascii) :
  (N_of_ascii a =? N_of_ascii b)%N = Ascii.eqb a b.
Proof.
  destruct (Ascii.eqb_spec a b) as [-> | Hne].
  - apply N.eqb_refl.
  - apply N.eqb_neq. intros H. apply Hne.
    now rewrite <- (ascii_N_embedding a), <- (ascii_N_embedding b), H.
Qed.

Lemma text_cons (c : ascii) (s : string) :
  Unicode.text (String c s) = N_of_ascii c :: Unicode.text s.
Proof. reflexivity. Qed.

Lemma text_append (a b : string) :
  Unicode.text (a ++ b) = (Unicode.text a ++ Unicode.text b)%list.
Proof.
  induction a as [| c a IH]; [reflexivity |].
  cbn [append]. rewrite !text_cons, IH. reflexivity.
Qed.

Lemma text_eqb (a b : string) :
  Unicode.eqb (Unicode.text a) (Unicode.text b) = (a =? b).
Proof.
  revert b. induction a as [| x a IH]; intros [| y b]; try reflexivity.
  rewrite !text_cons. cbn [Unicode.eqb String.eqb].
  rewrite code_eqb, IH. now destruct (Ascii.eqb x y).
Qed.

Lemma text_contains (c : ascii) (s : string) :
  Unicode.contains (N_of_ascii c) (Unicode.text s) = contains c s.
Proof.
  unfold Unicode.contains, contains.
  induction s as [| a s IH]; [reflexivity |].
  rewrite text_cons. cbn [existsb any_char]. now rewrite code_eqb, IH.
Qed.

Lemma text_split (c : ascii) (s : string) :
  Unicode.split (N_of_ascii c) (Unicode.text s)
  = map Unicode.text (split c s).
Proof.
  induction s as [| a s IH]; [reflexivity |].
  rewrite text_cons. cbn [Unicode.split split]. rewrite code_eqb, IH.
  destruct (Ascii.eqb a c); [reflexivity |].
  now destruct (split c s).
Qed.

Lemma ascii_only_cons (c : ascii) (s : string) :
  Unicode.ascii_only (String c s)
  = (N_of_ascii c <? 128)%N && Unicode.ascii_only s.
Proof. reflexivity. Qed.

Lemma text_isnumeric (s : string) :
  Unicode.ascii_only s = true ->
  Unicode.isnumeric (Unicode.text s) = isnumeric s.
Proof.
  intros H.
  assert (Hall : forallb Unicode.isnumeric_char (Unicode.text s)
                 = all_chars isdigit_char s).
  { induction s as [| c s IH]; [reflexivity |].
    rewrite ascii_only_cons in H. apply andb_true_iff in H.
    destruct H as [Hc Hs].
    rewrite text_cons. cbn [forallb all_chars].
    now rewrite (ascii_char_isnumeric c Hc), (IH Hs). }
  destruct s as [| c s]; [reflexivity | exact Hall].
Qed.

Lemma text_upper (s : string) :
  Unicode.ascii_only s = true ->
  Unicode.upper (Unicode.text s) = Unicode.text (upper s).
Proof.
  unfold Unicode.upper.
  induction s as [| c s IH]; intros H; [reflexivity |].
  rewrite ascii_only_cons in H. apply andb_true_iff in H.
  destruct H as [Hc Hs].
  cbn [upper]. rewrite !text_cons. cbn [flat_map].
  now rewrite (ascii_char_upper c Hc), (IH Hs).
Qed.

Lemma ascii_only_before (c : ascii) (s : string) :
  Unicode.ascii_only s = true -> Unicode.ascii_only (before c s) = true.
Proof.
  induction s as [| a s IH]; intros H; [reflexivity |].
  rewrite ascii_only_cons in H. apply andb_true_iff in H.
  destruct H as [Ha Hs]. cbn [before].
  destruct (Ascii.eqb a c); [reflexivity |].
  now rewrite ascii_only_cons, Ha, (IH Hs).
Qed.

Lemma ascii_only_after (c : ascii) (s : string) :
  Unicode.ascii_only s = true -> Unicode.ascii_only (after c s) = true.
Proof.
  induction s as [| a s IH]; intros H; [reflexivity |].
  rewrite ascii_only_cons in H. apply andb_true_iff in H.
  destruct H as [Ha Hs]. cbn [after].
  destruct (Ascii.eqb a c); [exact Hs | now apply IH].
Qed.

(** The byte-string normaliser is the code-point normaliser on ASCII
    input. *)
Lemma normalize_ticker_on_ascii (ticker_input : string) :
  Unicode.ascii_only ticker_input = true ->
  Unicode.normalize_ticker (Unicode.text ticker_input)
  = Unicode.text (normalize_ticker ticker_input).
Proof.
  intros H. unfold Unicode.normalize_ticker, Unicode.dot.
  change 46%N with (N_of_ascii ".").
  rewrite normalize_ticker_cases, (text_isnumeric _ H), text_contains,
    text_split.
  destruct (isnumeric ticker_input); [now rewrite text_append |].
  destruct (contains "." ticker_input) eqn:Hdot.
  - destruct (split_second "." ticker_input Hdot) as [Hlen Hsnd].
    rewrite length_map, Hlen.
    change (@nil N) with (Unicode.text "").
    rewrite !map_nth, Hsnd, split_head.
    rewrite (text_upper _ (ascii_only_before _ _ (ascii_only_after _ _ H))).
    rewrite text_eqb.
    destruct (_ =? "T"); now rewrite text_append.
  - now rewrite (text_upper _ H), text_append.
Qed.
